(** * Release tasks of warehouse ([tasks.py]): a shallow embedding

    [tasks.py] drives git, tox, setup.py and twine through [invoke.run].
    The embedding has three layers:

    - [Py] and [Path]: the Python string and path operations the script
      uses ([split], [join], [int], [str], [sorted], [format],
      [textwrap.dedent], [os.path.join], ...);
    - the monad [M]: state and exceptions over the process state (working
      directory, environment variables) and an external [System] (file
      system, repository, clock) that answers every call made to it;
    - [Tasks]: the four tasks, statement by statement, and [invoke]'s
      executor over their collection.

    The properties ([Properties]) are stated on the outcome of a task: its
    result (returned or raised), the final process state and the trace of
    the calls it made. [Sim] is a concrete system, and [Runs] evaluates the
    tasks on it. [Scripts] gives the commands and events of the tasks in
    their order, and [Further] what follows from them. *)

From Stdlib Require Import ZArith NArith String Ascii List Lia Sorted.
From Stdlib Require Import DecimalString DecimalZ DecimalN DecimalPos.
From stdpp Require Import gmap strings list.

Local Open Scope Z_scope.

(** ** Python strings *)

Module Py.

(** Characters that cannot be written inside a string literal here. *)
Definition dquote : string := String (ascii_of_nat 34) "".
Definition nl : string := String (ascii_of_nat 10) "".
Definition esc : string := String (ascii_of_nat 27) "".

(** ASCII whitespace, as [str.split()], [str.strip()] and [str.lstrip()]
    without argument see it: space, tab, newline, vertical tab, form feed,
    carriage return. *)
Definition is_space (c : ascii) : bool :=
  let n := nat_of_ascii c in
  (n =? 32)%nat || ((9 <=? n)%nat && (n <=? 13)%nat).

(** The fields of [s] between the characters that satisfy [sep]: always at
    least one field, empty fields kept. *)
Fixpoint fields (sep : ascii → bool) (s : string) : list string :=
  match s with
  | EmptyString => [EmptyString]
  | String c r =>
      if sep c then EmptyString :: fields sep r
      else match fields sep r with
           | f :: fs => String c f :: fs
           | [] => [String c EmptyString]
           end
  end.

Definition nonempty (s : string) : bool :=
  match s with EmptyString => false | _ => true end.

(** [s.split(c)] for a one-character separator. [s.rsplit(c)] without a
    maximum number of splits returns the same list. *)
Definition split (c : ascii) (s : string) : list string :=
  fields (Ascii.eqb c) s.

Definition rsplit (c : ascii) (s : string) : list string := split c s.

(** [s.split()]: the maximal runs of non-whitespace characters. *)
Definition split_ws (s : string) : list string :=
  List.filter nonempty (fields is_space s).

(** [sep.join(l)]. *)
Fixpoint join (sep : string) (l : list string) : string :=
  match l with
  | [] => EmptyString
  | [x] => x
  | x :: r => x +:+ sep +:+ join sep r
  end.

(** [s.lstrip()], [s.strip()]. *)
Fixpoint lstrip (s : string) : string :=
  match s with
  | String c r => if is_space c then lstrip r else s
  | EmptyString => EmptyString
  end.

Definition rstrip (s : string) : string := String.rev (lstrip (String.rev s)).
Definition strip (s : string) : string := rstrip (lstrip s).

(** [s.startswith(prefix)]. *)
Fixpoint startswith (s prefix : string) {struct prefix} : bool :=
  match prefix, s with
  | EmptyString, _ => true
  | String a p, String b r => Ascii.eqb a b && startswith r p
  | String _ _, EmptyString => false
  end.

(** [s.endswith(suffix)]. *)
Definition endswith (s suffix : string) : bool :=
  let n := String.length s in
  let m := String.length suffix in
  (m <=? n)%nat && String.eqb (substring (n - m) m s) suffix.

(** [s[:n]]: the first [n] characters, all of [s] when it is shorter. *)
Definition slice_to (n : nat) (s : string) : string := substring 0 n s.

(** [str(n)] of an integer: decimal digits, [-] before a negative one. *)
Definition str (z : Z) : string := NilZero.string_of_int (Z.to_int z).

(** [int(s)] of a string: an optional sign and at least one decimal digit;
    [None] stands for [ValueError]. Python also strips surrounding
    whitespace; every string the script converts is a field of a
    whitespace-split word or of [strftime]'s output and holds none. *)
Definition digits (s : string) : option Z :=
  match s with
  | EmptyString => None
  | _ => (λ d, Z.of_N (N.of_uint d)) <$> NilEmpty.uint_of_string s
  end.

Definition int (s : string) : option Z :=
  match s with
  | String "+" r => digits r
  | String "-" r => Z.opp <$> digits r
  | _ => digits s
  end.

(** [sorted(l)] of a list of strings: ascending by code point. *)
Fixpoint insert_sorted (x : string) (l : list string) : list string :=
  match l with
  | [] => [x]
  | y :: r => if String.leb x y then x :: l else y :: insert_sorted x r
  end.

Definition sorted (l : list string) : list string :=
  foldr insert_sorted [] l.

(** [l[-1]]: [None] stands for [IndexError]. *)
Definition last_item {A} (l : list A) : option A := last l.

(** *** [str.format]

    Replacement fields are [{}] (numbered in order of appearance), [{i}]
    and [{name}]; [{{] and [}}] are literal braces. Conversions and format
    specifications do not occur in the script. [None] stands for the
    [IndexError], [KeyError] or [ValueError] Python raises. *)
Definition field_value (pos : list string) (kw : list (string * string))
    (auto : nat) (name : string) : option (string * nat) :=
  match name with
  | EmptyString => (λ v, (v, S auto)) <$> pos !! auto
  | _ =>
      match NilEmpty.uint_of_string name with
      | Some d => (λ v, (v, auto)) <$> pos !! Nat.of_uint d
      | None => (λ v, (v, auto)) <$> (snd <$> List.find (λ p, String.eqb (fst p) name) kw)
      end
  end.

Fixpoint format_from (pos : list string) (kw : list (string * string))
    (auto : nat) (field : option string) (t : string) : option string :=
  match t, field with
  | EmptyString, None => Some EmptyString
  | EmptyString, Some _ => None
  | String c r, Some name =>
      if Ascii.eqb c "}" then
        match field_value pos kw auto name with
        | Some (v, auto') => (λ rest, v +:+ rest) <$> format_from pos kw auto' None r
        | None => None
        end
      else format_from pos kw auto (Some (name +:+ String c EmptyString)) r
  | String c r, None =>
      if Ascii.eqb c "{" then
        match r with
        | String "{" r' => String "{" <$> format_from pos kw auto None r'
        | _ => format_from pos kw auto (Some EmptyString) r
        end
      else if Ascii.eqb c "}" then
        match r with
        | String "}" r' => String "}" <$> format_from pos kw auto None r'
        | _ => None
        end
      else String c <$> format_from pos kw auto None r
  end.

Definition format (t : string) (pos : list string) (kw : list (string * string))
    : option string :=
  format_from pos kw 0 None t.

(** *** [textwrap.dedent]

    Lines of spaces and tabs only become empty; the longest run of leading
    spaces and tabs common to the other lines is removed from each. *)
Definition is_blank (c : ascii) : bool :=
  Ascii.eqb c " " || Ascii.eqb c (ascii_of_nat 9).

Fixpoint all_blank (s : string) : bool :=
  match s with
  | EmptyString => true
  | String c r => is_blank c && all_blank r
  end.

Fixpoint indent_of (s : string) : string :=
  match s with
  | String c r => if is_blank c then String c (indent_of r) else EmptyString
  | EmptyString => EmptyString
  end.

Fixpoint common_prefix (a b : string) : string :=
  match a, b with
  | String x a', String y b' =>
      if Ascii.eqb x y then String x (common_prefix a' b') else EmptyString
  | _, _ => EmptyString
  end.

Definition margin_of (lines : list string) : string :=
  match lines with
  | [] => EmptyString
  | l :: ls => foldl common_prefix (indent_of l) (indent_of <$> ls)
  end.

Fixpoint drop_chars (n : nat) (s : string) : string :=
  match n, s with
  | S n', String _ r => drop_chars n' r
  | _, _ => s
  end.

Definition dedent (text : string) : string :=
  let lines := (λ l, if all_blank l then EmptyString else l)
                 <$> split (ascii_of_nat 10) text in
  let margin := margin_of (List.filter nonempty lines) in
  join nl (drop_chars (String.length margin) <$> lines).

End Py.

(** ** POSIX paths ([os.path]) *)

Module Path.
Import Py.

Definition is_slash (c : ascii) : bool := Ascii.eqb c "/".

Definition isabs (p : string) : bool :=
  match p with String "/" _ => true | _ => false end.

(** [os.path.join(a, b)]. *)
Definition join2 (a b : string) : string :=
  if isabs b then b
  else if negb (nonempty a) || endswith a "/" then a +:+ b
  else a +:+ "/" +:+ b.

Definition join (a : string) (bs : list string) : string := foldl join2 a bs.

(** [s.rstrip("/")]. *)
Fixpoint lstrip_slash (s : string) : string :=
  match s with
  | String c r => if is_slash c then lstrip_slash r else s
  | EmptyString => EmptyString
  end.

Definition rstrip_slash (s : string) : string :=
  String.rev (lstrip_slash (String.rev s)).

(** The characters that follow the first slash, the empty string when there
    is none. *)
Fixpoint after_slash (s : string) : string :=
  match s with
  | String c r => if is_slash c then s else after_slash r
  | EmptyString => EmptyString
  end.

(** [os.path.dirname(p)]: [p] up to its last slash, without the trailing
    slashes unless nothing else is left. *)
Definition dirname (p : string) : string :=
  let head := String.rev (after_slash (String.rev p)) in
  match rstrip_slash head with
  | EmptyString => head
  | h => h
  end.

(** [os.path.normpath(p)]. *)
Definition norm_step (rooted : bool) (acc : list string) (comp : string)
    : list string :=
  if negb (nonempty comp) || String.eqb comp "." then acc
  else if negb (String.eqb comp "..") then acc ++ [comp]
  else match last acc with
       | None => if rooted then acc else acc ++ [comp]
       | Some l => if String.eqb l ".." then acc ++ [comp]
                   else removelast acc
       end.

Definition normpath (p : string) : string :=
  match p with
  | EmptyString => "."
  | _ =>
      let slashes :=
        match p with
        | String "/" (String "/" (String "/" _)) => "/"
        | String "/" (String "/" _) => "//"
        | String "/" _ => "/"
        | _ => EmptyString
        end in
      let comps := foldl (norm_step (nonempty slashes)) [] (split "/" p) in
      match slashes +:+ Py.join "/" comps with
      | EmptyString => "."
      | q => q
      end
  end.

(** [os.path.abspath(p)] in the working directory [cwd]. *)
Definition abspath (cwd p : string) : string :=
  normpath (if isabs p then p else join2 cwd p).

End Path.

(** ** The process, the system around it, and the monad of the tasks *)

(** [hide] argument of [invoke.run]: [None], ["out"], ["both"], [True]. It
    selects which streams of the command are echoed; the output is captured
    either way. *)
Inductive hide := HideNone | HideOut | HideBoth | HideTrue.

(** The exceptions raised in the script. [Failure] is [invoke]'s: the
    command and its exit status. *)
Inductive exn :=
| Failure (cmd : string) (code : Z)
| OSError (call path : string)
| ValueError (arg : string)
| IndexError
| KeyError (key : string).

Inductive result (A : Type) :=
| Ok (a : A)
| Raise (e : exn).
Arguments Ok {A} a.
Arguments Raise {A} e.

(** Code that touches nothing outside: it returns or raises. *)
#[global] Instance result_ret : MRet result := λ A, Ok.
#[global] Instance result_bind : MBind result := λ A B f r,
  match r with Ok a => f a | Raise e => Raise e end.

(** An optional value, with the exception raised when there is none. *)
Definition from_option {A} (e : exn) (o : option A) : result A :=
  match o with Some a => Ok a | None => Raise e end.

(** [datetime.datetime]: the fields [strftime("%y.%m")] reads. *)
Record datetime := { year : N; month : N }.

(** Calls that reach outside the process, with what they returned. *)
Inductive event :=
| EvPrint (line : string)
| EvRun (cmd : string) (h : hide) (code : Z) (stdout : string)
| EvMkdtemp (r : option string)
| EvChdir (path : string) (ok : bool)
| EvRmtree (path : string)
| EvMakedirs (path : string) (ok : bool)
| EvListdir (path : string) (r : option (list string))
| EvMove (src dst : string) (ok : bool)
| EvWrite (path content : string) (ok : bool).

(** The system the script runs on, with state [X] (files, repository,
    network, clock). A child process inherits the working directory and the
    environment and can change neither in its parent, so commands are
    functions of them that return a new system state only. File-system
    calls say whether they succeed; relative paths are resolved against the
    working directory they are given. *)
Record System (X : Type) := {
  sys_utcnow : X → datetime;
  (** the shell command, the working directory, the environment *)
  sys_exec : string → string → gmap string string → X → Z * string * X;
  sys_mkdtemp : X → option string * X;
  sys_chdir : string → string → X → bool;
  (** [shutil.rmtree(path, ignore_errors=True)]: never raises *)
  sys_rmtree : string → string → X → X;
  sys_makedirs : string → string → X → bool * X;
  sys_listdir : string → string → X → option (list string);
  sys_move : string → string → string → X → bool * X;
  (** [open(path, "w")], [write], close *)
  sys_write : string → string → string → X → bool * X;
}.
Arguments sys_utcnow {X}.
Arguments sys_exec {X}.
Arguments sys_mkdtemp {X}.
Arguments sys_chdir {X}.
Arguments sys_rmtree {X}.
Arguments sys_makedirs {X}.
Arguments sys_listdir {X}.
Arguments sys_move {X}.
Arguments sys_write {X}.

(** The state a task runs in: the process's own (working directory,
    [os.environ]) and the system's. *)
Record world (X : Type) := World {
  w_cwd : string;
  w_environ : gmap string string;
  w_ext : X;
}.
Arguments World {X}.
Arguments w_cwd {X}.
Arguments w_environ {X}.
Arguments w_ext {X}.

Record outcome (X A : Type) := Outcome {
  o_res : result A;
  o_world : world X;
  o_trace : list event;
}.
Arguments Outcome {X A}.
Arguments o_res {X A}.
Arguments o_world {X A}.
Arguments o_trace {X A}.

Definition M (X A : Type) : Type := world X → outcome X A.

Section Monad.
Context {X : Type}.

Definition ret {A} (a : A) : M X A := λ w, Outcome (Ok a) w [].

Definition raise {A} (e : exn) : M X A := λ w, Outcome (Raise e) w [].

Definition bind {A B} (m : M X A) (f : A → M X B) : M X B := λ w,
  let o := m w in
  match o_res o with
  | Ok a =>
      let o' := f a (o_world o) in
      Outcome (o_res o') (o_world o') (o_trace o ++ o_trace o')
  | Raise e => Outcome (Raise e) (o_world o) (o_trace o)
  end.

(** [try: body finally: fin]: [fin] runs however [body] ends; the outcome
    is [body]'s unless [fin] raises, and then it is that exception. *)
Definition try_finally {A} (body : M X A) (fin : M X unit) : M X A := λ w,
  let o := body w in
  let o' := fin (o_world o) in
  Outcome (match o_res o' with Ok _ => o_res o | Raise e => Raise e end)
          (o_world o') (o_trace o ++ o_trace o').

(** [for x in l: body x]. *)
Fixpoint for_each {A} (l : list A) (body : A → M X unit) : M X unit :=
  match l with
  | [] => ret tt
  | x :: r => bind (body x) (λ _, for_each r body)
  end.

(** A computation that touches nothing outside, run inside a task. *)
Definition lift {A} (r : result A) : M X A := λ w, Outcome r w [].

Definition expect {A} (e : exn) (o : option A) : M X A :=
  lift (from_option e o).

End Monad.

#[global] Instance M_ret {X} : MRet (M X) := λ A, ret.
#[global] Instance M_bind {X} : MBind (M X) := λ A B f m, bind m f.

(** ** The calls the script makes *)

Section Calls.
Context {X : Type} (S : System X).

Definition set_ext (w : world X) (x : X) : world X :=
  World (w_cwd w) (w_environ w) x.

(** [print(line)]. *)
Definition print (line : string) : M X unit := λ w,
  Outcome (Ok tt) w [EvPrint line].

(** [os.environ[key] = value]. *)
Definition setenv (key value : string) : M X unit := λ w,
  Outcome (Ok tt) (World (w_cwd w) (<[key := value]> (w_environ w)) (w_ext w)) [].

(** [os.getcwd()]. *)
Definition getcwd : M X string := λ w, Outcome (Ok (w_cwd w)) w [].

(** [datetime.datetime.utcnow()]. *)
Definition utcnow : M X datetime := λ w,
  Outcome (Ok (sys_utcnow S (w_ext w))) w [].

(** [invoke.run(cmd, hide=h)]: the command runs in a shell; a nonzero exit
    status raises [Failure] (no call of the script passes [warn=True]);
    otherwise the returned object holds the captured output, of which the
    script reads [stdout] only. *)
Definition run (cmd : string) (h : hide) : M X string := λ w,
  let '(code, stdout, x) := sys_exec S cmd (w_cwd w) (w_environ w) (w_ext w) in
  Outcome (if code =? 0 then Ok stdout else Raise (Failure cmd code))
          (set_ext w x) [EvRun cmd h code stdout].

(** [tempfile.mkdtemp()]. *)
Definition mkdtemp : M X string := λ w,
  let '(r, x) := sys_mkdtemp S (w_ext w) in
  Outcome (match r with Some d => Ok d | None => Raise (OSError "mkdtemp" "") end)
          (set_ext w x) [EvMkdtemp r].

(** [os.chdir(path)]: the working directory changes when the call
    succeeds. *)
Definition chdir (path : string) : M X unit := λ w,
  if sys_chdir S path (w_cwd w) (w_ext w)
  then Outcome (Ok tt) (World path (w_environ w) (w_ext w)) [EvChdir path true]
  else Outcome (Raise (OSError "chdir" path)) w [EvChdir path false].

(** [shutil.rmtree(path, ignore_errors=True)]. *)
Definition rmtree (path : string) : M X unit := λ w,
  Outcome (Ok tt) (set_ext w (sys_rmtree S path (w_cwd w) (w_ext w)))
          [EvRmtree path].

(** [os.makedirs(path)]. *)
Definition makedirs (path : string) : M X unit := λ w,
  let '(ok, x) := sys_makedirs S path (w_cwd w) (w_ext w) in
  Outcome (if ok then Ok tt else Raise (OSError "makedirs" path))
          (set_ext w x) [EvMakedirs path ok].

(** [os.listdir(path)]. *)
Definition listdir (path : string) : M X (list string) := λ w,
  let r := sys_listdir S path (w_cwd w) (w_ext w) in
  Outcome (match r with Some l => Ok l | None => Raise (OSError "listdir" path) end)
          w [EvListdir path r].

(** [shutil.move(src, dst)]. *)
Definition move (src dst : string) : M X unit := λ w,
  let '(ok, x) := sys_move S src dst (w_cwd w) (w_ext w) in
  Outcome (if ok then Ok tt else Raise (OSError "move" src))
          (set_ext w x) [EvMove src dst ok].

(** [with open(path, "w") as f: f.write(content)]. *)
Definition write_file (path content : string) : M X unit := λ w,
  let '(ok, x) := sys_write S path content (w_cwd w) (w_ext w) in
  Outcome (if ok then Ok tt else Raise (OSError "open" path))
          (set_ext w x) [EvWrite path content ok].

(** [os.path.abspath(path)], which reads the working directory. *)
Definition abspath (path : string) : M X string := λ w,
  Outcome (Ok (Path.abspath (w_cwd w) path)) w [].

(** [template.format] on positional and keyword arguments. *)
Definition format (template : string) (pos : list string)
    (kw : list (string * string)) : M X string :=
  expect (ValueError template) (Py.format template pos kw).

End Calls.

(** ** The tasks *)

Module Tasks.

(** [strftime("%y.%m")]: the year within its century and the month, two
    digits each. *)
Definition pad2 (n : N) : string :=
  if (n <? 10)%N then "0" +:+ Py.str (Z.of_N n) else Py.str (Z.of_N n).

Definition strftime_ym (d : datetime) : string :=
  pad2 (year d mod 100) +:+ "." +:+ pad2 (month d).

(** The text between the triple quotes of [about_template], line by line. *)
Definition about_source : string :=
  let q := Py.dquote in
  Py.join Py.nl [
    "";
    "        # Copyright 2013 Donald Stufft";
    "        #";
    "        # Licensed under the Apache License, Version 2.0 (the " +:+ q +:+ "License" +:+ q +:+ ");";
    "        # you may not use this file except in compliance with the License.";
    "        # You may obtain a copy of the License at";
    "        #";
    "        # http://www.apache.org/licenses/LICENSE-2.0";
    "        #";
    "        # Unless required by applicable law or agreed to in writing, software";
    "        # distributed under the License is distributed on an " +:+ q +:+ "AS IS" +:+ q +:+ " BASIS,";
    "        # WITHOUT WARRANTIES OR CONDITIONS OF ANY KIND, either express or implied.";
    "        # See the License for the specific language governing permissions and";
    "        # limitations under the License.";
    "        from __future__ import absolute_import, division, print_function";
    "        from __future__ import unicode_literals";
    "";
    "        # This file is automatically generated, do not edit it";
    "";
    "";
    "        __all__ = [";
    "            " +:+ q +:+ "__title__" +:+ q +:+ ", " +:+ q +:+ "__summary__" +:+ q +:+ ", "
                   +:+ q +:+ "__uri__" +:+ q +:+ ", " +:+ q +:+ "__version__" +:+ q +:+ ",";
    "            " +:+ q +:+ "__author__" +:+ q +:+ ", " +:+ q +:+ "__email__" +:+ q +:+ ", "
                   +:+ q +:+ "__license__" +:+ q +:+ ", " +:+ q +:+ "__copyright__" +:+ q +:+ ",";
    "        ]";
    "";
    "        __title__ = " +:+ q +:+ "warehouse" +:+ q;
    "        __summary__ = " +:+ q +:+ "Next Generation Python Package Repository" +:+ q;
    "        __uri__ = " +:+ q +:+ "https://github.com/dstufft/warehouse" +:+ q;
    "";
    "        __version__ = " +:+ q +:+ "{version}" +:+ q;
    "        __build__ = " +:+ q +:+ "{build}" +:+ q;
    "";
    "        __author__ = " +:+ q +:+ "Donald Stufft" +:+ q;
    "        __email__ = " +:+ q +:+ "donald@stufft.io" +:+ q;
    "";
    "        __license__ = " +:+ q +:+ "Apache License, Version 2.0" +:+ q;
    "        __copyright__ = " +:+ q +:+ "Copyright 2013 Donald Stufft" +:+ q;
    "    "
  ].

(** Keyword arguments of the command line. Every task takes the ones it
    names and swallows the others in its [**kwargs]. *)
Record kwargs := {
  kw_repository : option string;
  kw_database : option string;
  kw_verbose : bool;
}.

Definition no_kwargs : kwargs :=
  {| kw_repository := None; kw_database := None; kw_verbose := false |}.

(** [int(s)], outside a task. *)
Definition to_int (s : string) : result Z := from_option (ValueError s) (Py.int s).

(** [[str(int(x)) for x in l]]. *)
Fixpoint map_int_str (l : list string) : result (list string) :=
  match l with
  | [] => Ok []
  | x :: r => n ← to_int x; r' ← map_int_str r; mret (Py.str n :: r')
  end.

(** [".".join([str(int(x)) for x in s.split(".")])]. *)
Definition int_components (s : string) : result string :=
  l ← map_int_str (Py.split "." s); mret (Py.join "." l).

(** Lines 75 and 76: the counter of the new version, from the output of
    [git tag -l]:
    [versions = sorted(tags.stdout.split())] and
    [int(versions[-1].rsplit(".")[-1]) + 1 if versions else 0]. *)
Definition next_version_num (tags : string) : result Z :=
  let versions := Py.sorted (Py.split_ws tags) in
  match Py.last_item versions with
  | Some latest =>
      field ← from_option IndexError (Py.last_item (Py.rsplit "." latest));
      n ← to_int field;
      mret (n + 1)
  | None => Ok 0
  end.

Section WithSystem.
Context {X : Type} (S : System X).
(** [__file__] of the module. *)
Variable module_file : string.

Definition _out (name message : string) : M X unit :=
  line ← format ("[" +:+ Py.esc +:+ "[1;37m{}" +:+ Py.esc +:+ "[0m] {}") [name; message] [];
  print line.

(** A Python set is a [gset]; its iteration order is the order of
    [elements]: some enumeration without duplicates, the same each time
    the set is iterated unchanged. [s.pop()] takes the first one. *)
Definition set_pop (s : gset string) : M X string :=
  expect (KeyError "pop from an empty set") (head (elements s)).

(** [tmpdir if tmpdir.endswith("/") else tmpdir + "/"]. *)
Definition with_slash (tmpdir : string) : string :=
  if Py.endswith tmpdir "/" then tmpdir else tmpdir +:+ "/".

(** [if database:] is false for [None] and for the empty string. *)
Definition release_test (database : option string) (verbose : bool) : M X unit :=
  let out := _out "release.test" in
  let hide := if negb verbose then HideOut else HideNone in
  match database with
  | Some url => if Py.nonempty url then setenv "WAREHOUSE_DATABASE_URL" url else ret tt
  | None => ret tt
  end;;
  out "Creating a temporary directory to export Warehouse to";;
  curdir ← getcwd;
  tmpdir ← mkdtemp S;
  let tmpdir := with_slash tmpdir in
  try_finally
    (cmd ← format "git checkout-index -f -a --prefix={}" [tmpdir] [];
     run S cmd hide;;
     chdir S tmpdir;;
     listing ← run S "tox -l" hide;
     let envs : gset string := list_to_set (Py.split_ws listing) ∖ {["packaging"]} in
     msg ← format "Running tests: {}" [Py.join ", " (elements envs)] [];
     out msg;;
     for_each (elements envs) (λ env,
       msg ← format "Running the {} tests" [env] [];
       out msg;;
       cmd ← format "tox -e {}" [env] [];
       run S cmd hide;;
       ret tt))
    (chdir S curdir;;
     rmtree S tmpdir).

(** [about_template.format(version=..., build=...).lstrip()], written to
    [about_path]. The template holds the two named fields only, so nothing
    is raised between opening the file and writing it, and the model makes
    one call of the three. *)
Definition render_about (about_template about_path version build : string)
    : M X unit :=
  text ← format about_template [] [("version", version); ("build", build)];
  write_file S about_path (Py.lstrip text).

Definition release_build (verbose : bool) : M X unit :=
  let out := _out "release.build" in
  let hide := if negb verbose then HideOut else HideNone in
  let hide_all := if negb verbose then HideTrue else HideNone in
  now ← utcnow S;
  let version_series := strftime_ym now in
  version_series ← lift (int_components version_series);
  cmd ← format "git tag -l 'v{}.*'" [version_series] [];
  tags ← run S cmd hide;
  version_num ← lift (next_version_num tags);
  let version := Py.join "." [version_series; Py.str version_num] in
  version ← lift (int_components version);
  msg ← format "New release will be version {}" [version] [];
  out msg;;
  rev ← run S "git rev-parse HEAD" hide;
  let build_tag := Py.slice_to 7 rev in
  msg ← format "Using build tag: '{}'" [build_tag] [];
  out msg;;
  let about_template := Py.dedent about_source in
  here ← abspath (Path.dirname module_file);
  let about_path := Path.join here ["warehouse"; "__about__.py"] in
  render_about about_template about_path version build_tag;;
  run S "git add warehouse/__about__.py" hide;;
  cmd ← format "git commit -m 'Generate the release __about__.py (version={} build={})'"
          [version; build_tag] [];
  run S cmd hide;;
  out "warehouse/__about__.py generated with release values";;
  cmd ← format "git tag -s -m 'Released version v{0} ({1})' v{0}" [version; build_tag] [];
  run S cmd hide_all;;
  out "Creating a temporary directory to export Warehouse to";;
  curdir ← getcwd;
  tmpdir ← mkdtemp S;
  let tmpdir := with_slash tmpdir in
  try_finally
    (branch ← run S "git rev-parse --abbrev-ref HEAD" hide;
     let current_branch := Py.strip branch in
     cmd ← format "git checkout v{}" [version] [];
     run S cmd hide_all;;
     cmd ← format "git checkout-index -f -a --prefix={}" [tmpdir] [];
     run S cmd hide;;
     cmd ← format "git checkout {}" [current_branch] [];
     run S cmd hide_all;;
     chdir S tmpdir;;
     makedirs S "dist";;
     for_each ["sdist"; "bdist_wheel"] (λ dist_type,
       before ← listdir S "dist";
       let filenames : gset string := list_to_set before in
       cmd ← format "python setup.py {}" [dist_type] [];
       run S cmd hide;;
       after ← listdir S "dist";
       filename ← set_pop (list_to_set after ∖ filenames);
       msg ← format "Generated {} ({})" [dist_type; filename] [];
       out msg);;
     chdir S curdir;;
     target ← abspath "dist";
     rmtree S target;;
     target ← abspath "dist";
     move S (Path.join tmpdir ["dist"]) target)
    (chdir S curdir;;
     rmtree S tmpdir);;
  let next_version := Py.join "." [version_series; Py.str (version_num + 1)] in
  next_version ← lift (int_components next_version);
  let next_version := next_version +:+ ".dev0" in
  let build_tag := "<development>" in
  render_about about_template about_path next_version build_tag;;
  run S "git add warehouse/__about__.py" hide;;
  cmd ← format "git commit -m 'Generate the development __about__.py'"
          [next_version; build_tag] [];
  run S cmd hide;;
  out "warehouse/__about__.py generated with development values".

Definition release_upload (repository : option string) (verbose : bool)
    : M X unit :=
  let out := _out "release.upload" in
  msg ← format "Uploading to {}" [default "PyPI" repository] [];
  out msg;;
  option ← match repository with
           | None => ret ""
           | Some r => format " -r {}" [r] []
           end;
  cmd ← format "twine upload --sign{} dist/*" [option] [];
  run S cmd (if negb verbose then HideBoth else HideNone);;
  out "Uploaded.".

(** The body of [release_all] is [pass]. *)
Definition release_all (repository database : option string) (verbose : bool)
    : M X unit :=
  ret tt.

(** *** [invoke]'s collection and executor

    A task of a collection: its pre-tasks, by name, and its body on the
    keyword arguments of the command line. *)
Record task := {
  t_pre : list string;
  t_body : kwargs → M X unit;
}.

(** The four functions as [invoke.task] decorates them. *)
Definition test_task : task :=
  {| t_pre := [];
     t_body := λ kw, release_test (kw_database kw) (kw_verbose kw) |}.

Definition build_task : task :=
  {| t_pre := [];
     t_body := λ kw, release_build (kw_verbose kw) |}.

Definition upload_task : task :=
  {| t_pre := [];
     t_body := λ kw, release_upload (kw_repository kw) (kw_verbose kw) |}.

Definition all_task : task :=
  {| t_pre := ["release.test"; "release.build"; "release.upload"];
     t_body := λ kw, release_all (kw_repository kw) (kw_database kw) (kw_verbose kw) |}.

(** [ns]: the collection [release] inside the root collection. *)
Definition ns : list (string * task) := [
  ("release.test", test_task);
  ("release.build", build_task);
  ("release.upload", upload_task);
  ("release.all", all_task)
].

Definition find_task (c : list (string * task)) (name : string) : M X task :=
  expect (KeyError name) (snd <$> List.find (λ p, String.eqb (fst p) name) c).

Fixpoint find_tasks (c : list (string * task)) (names : list string)
    : M X (list task) :=
  match names with
  | [] => ret []
  | n :: r => t ← find_task c n; ts ← find_tasks c r; ret (t :: ts)
  end.

(** [Executor.execute]: the pre-tasks of the named task are looked up, then
    they and the task are called in that order, and the first exception
    ends the run. Releases of invoke differ in what a pre-task is called
    with: the keyword arguments of the command line ([forward = true]), or
    none. A session that has run no task yet is modelled, so none is
    skipped as already called. *)
Definition execute (forward : bool) (c : list (string * task)) (name : string)
    (kw : kwargs) : M X unit :=
  t ← find_task c name;
  pre ← find_tasks c (t_pre t);
  for_each pre (λ p, t_body p (if forward then kw else no_kwargs));;
  t_body t kw.

End WithSystem.

End Tasks.

(** ** A scripted system, to run the tasks on

    Its state says what the tools print, which commands fail, which
    directory a command deletes, and keeps the directories deleted so far
    and the files built in the export's [dist]. *)

Module Sim.

Record sim := {
  s_now : datetime;
  s_tags : string;
  s_rev : string;
  s_envs : string;
  s_failing : list string;
  s_deletes : list (string * string);
  s_gone : list string;
  s_dist : list string;
}.

Definition mem (x : string) (l : list string) : bool :=
  existsb (String.eqb x) l.

Definition resolve (cwd path : string) : string := Path.abspath cwd path.

Definition exec (cmd cwd : string) (env : gmap string string) (x : sim)
    : Z * string * sim :=
  let code := if mem cmd (s_failing x) then 1 else 0 in
  let stdout :=
    if Py.startswith cmd "git tag -l" then s_tags x
    else if String.eqb cmd "git rev-parse HEAD" then s_rev x
    else if String.eqb cmd "git rev-parse --abbrev-ref HEAD" then "master" +:+ Py.nl
    else if String.eqb cmd "tox -l" then s_envs x
    else "" in
  let gone := (snd <$> List.filter (λ p, String.eqb (fst p) cmd) (s_deletes x))
              ++ s_gone x in
  let dist :=
    if String.eqb cmd "python setup.py sdist" then "warehouse.tar.gz" :: s_dist x
    else if String.eqb cmd "python setup.py bdist_wheel" then "warehouse.whl" :: s_dist x
    else s_dist x in
  (code, stdout,
   {| s_now := s_now x; s_tags := s_tags x; s_rev := s_rev x; s_envs := s_envs x;
      s_failing := s_failing x; s_deletes := s_deletes x;
      s_gone := gone; s_dist := dist |}).

Definition remove (path : string) (x : sim) : sim :=
  {| s_now := s_now x; s_tags := s_tags x; s_rev := s_rev x; s_envs := s_envs x;
     s_failing := s_failing x; s_deletes := s_deletes x;
     s_gone := path :: s_gone x; s_dist := s_dist x |}.

Definition system : System sim := {|
  sys_utcnow := s_now;
  sys_exec := exec;
  sys_mkdtemp := λ x, (Some "/tmp/tmpq3x7", x);
  sys_chdir := λ path cwd x, negb (mem (resolve cwd path) (s_gone x));
  sys_rmtree := λ path cwd x, remove (resolve cwd path) x;
  sys_makedirs := λ path cwd x, (true, x);
  sys_listdir := λ path cwd x, Some (s_dist x);
  sys_move := λ src dst cwd x, (true, x);
  sys_write := λ path content cwd x, (true, x);
|}.

(** September 2013, in [/repo], nothing released this month yet. *)
Definition calm : sim := {|
  s_now := {| year := 2013; month := 9 |};
  s_tags := "";
  s_rev := "4f2a9c81d07e5b3a6c1f0e9d8b7a6c5d4e3f2a1b" +:+ Py.nl;
  s_envs := "py27" +:+ Py.nl +:+ "pypy" +:+ Py.nl +:+ "packaging" +:+ Py.nl +:+ "docs" +:+ Py.nl;
  s_failing := [];
  s_deletes := [];
  s_gone := [];
  s_dist := [];
|}.

(** The same system, where [cmd] exits with status 1. *)
Definition failing (cmd : string) (x : sim) : sim :=
  {| s_now := s_now x; s_tags := s_tags x; s_rev := s_rev x; s_envs := s_envs x;
     s_failing := cmd :: s_failing x; s_deletes := s_deletes x;
     s_gone := s_gone x; s_dist := s_dist x |}.

(** The same system, where [cmd] deletes the directory [dir]. *)
Definition deleting (cmd dir : string) (x : sim) : sim :=
  {| s_now := s_now x; s_tags := s_tags x; s_rev := s_rev x; s_envs := s_envs x;
     s_failing := s_failing x; s_deletes := (cmd, dir) :: s_deletes x;
     s_gone := s_gone x; s_dist := s_dist x |}.

Definition start (x : sim) : world sim := World "/repo" ∅ x.

End Sim.

(** ** Reasoning about outcomes

    [wp m Q w]: the outcome of [m] in [w] (result, final state, trace)
    satisfies [Q]. One rule per construct and per call; a rule of a call
    quantifies over everything the system may answer. *)

Section Logic.
Context {X : Type} (S : System X).

Definition wp {A} (m : M X A) (Q : result A → world X → list event → Prop)
    (w : world X) : Prop :=
  Q (o_res (m w)) (o_world (m w)) (o_trace (m w)).

Lemma wp_ret {A} (a : A) Q w : Q (Ok a) w [] → wp (ret a) Q w.
Proof. done. Qed.

Lemma wp_mret {A} (a : A) Q w : Q (Ok a) w [] → wp (mret a : M X A) Q w.
Proof. done. Qed.

Lemma wp_raise {A} e (Q : result A → _) w : Q (Raise e) w [] → wp (raise e) Q w.
Proof. done. Qed.

Lemma wp_bind {A B} (m : M X A) (f : A → M X B) Q w :
  wp m (λ r w1 t1,
          match r with
          | Ok a => wp (f a) (λ r2 w2 t2, Q r2 w2 (t1 ++ t2)) w1
          | Raise e => Q (Raise e) w1 t1
          end) w →
  wp (m ≫= f) Q w.
Proof.
  unfold wp, mbind, M_bind, bind. destruct (o_res (m w)); simpl; auto.
Qed.

Lemma wp_try_finally {A} (body : M X A) fin Q w :
  wp body (λ r w1 t1,
             wp fin (λ r2 w2 t2,
                       Q (match r2 with Ok _ => r | Raise e => Raise e end)
                         w2 (t1 ++ t2)) w1) w →
  wp (try_finally body fin) Q w.
Proof. done. Qed.

Lemma wp_mono {A} (m : M X A) (Q Q' : result A → world X → list event → Prop) w :
  wp m Q w → (∀ r w' t, Q r w' t → Q' r w' t) → wp m Q' w.
Proof. unfold wp. auto. Qed.

Lemma wp_for_nil {A} (body : A → M X unit) Q w :
  Q (Ok tt) w [] → wp (for_each [] body) Q w.
Proof. done. Qed.

Lemma wp_for_cons {A} (x : A) l body Q w :
  wp (body x ≫= λ _, for_each l body) Q w → wp (for_each (x :: l) body) Q w.
Proof. done. Qed.

(** A loop, with an invariant on the items done, the state and the trace so
    far. An iteration that raises ends the loop. *)
Lemma wp_for_each {A} (l : list A) (body : A → M X unit)
    (I : list A → world X → list event → Prop) Q w :
  I [] w [] →
  (∀ seen x rest w1 t1,
     l = seen ++ x :: rest → I seen w1 t1 →
     wp (body x) (λ r w2 t2,
                    match r with
                    | Ok _ => I (seen ++ [x]) w2 (t1 ++ t2)
                    | Raise e => Q (Raise e) w2 (t1 ++ t2)
                    end) w1) →
  (∀ w1 t1, I l w1 t1 → Q (Ok tt) w1 t1) →
  wp (for_each l body) Q w.
Proof.
  intros H0 Hstep Hend.
  assert (G : ∀ rest seen w1 t1,
             l = seen ++ rest → I seen w1 t1 →
             wp (for_each rest body) (λ r w2 t2, Q r w2 (t1 ++ t2)) w1).
  { induction rest as [|x rest IH]; intros seen w1 t1 El Hi.
    - apply wp_for_nil. rewrite app_nil_r in *. subst. auto.
    - apply wp_for_cons, wp_bind.
      eapply wp_mono; [exact (Hstep seen x rest w1 t1 El Hi)|].
      intros [[]|e] w2 t2; simpl; [|done].
      intros Hi'. eapply wp_mono.
      + apply (IH (seen ++ [x]) w2 (t1 ++ t2)); [|done].
        by rewrite <- app_assoc.
      + intros r w3 t3. simpl. by rewrite app_assoc. }
  exact (G l [] w [] eq_refl H0).
Qed.

Lemma wp_expect {A} e (o : option A) Q w :
  match o with Some a => Q (Ok a) w [] | None => Q (Raise e) w [] end →
  wp (expect e o) Q w.
Proof. by destruct o. Qed.

Lemma wp_format t pos kw s Q w :
  Py.format t pos kw = Some s → Q (Ok s) w [] → wp (format t pos kw) Q w.
Proof. unfold format, expect. by intros ->. Qed.

Lemma wp_lift {A} (r : result A) Q w : Q r w [] → wp (lift r) Q w.
Proof. done. Qed.

Lemma wp_print line Q w : Q (Ok tt) w [EvPrint line] → wp (print line) Q w.
Proof. done. Qed.

Lemma wp_setenv k v Q w :
  Q (Ok tt) (World (w_cwd w) (<[k := v]> (w_environ w)) (w_ext w)) [] →
  wp (setenv k v) Q w.
Proof. done. Qed.

Lemma wp_getcwd Q w : Q (Ok (w_cwd w)) w [] → wp getcwd Q w.
Proof. done. Qed.

Lemma wp_abspath p Q w : Q (Ok (Path.abspath (w_cwd w) p)) w [] → wp (abspath p) Q w.
Proof. done. Qed.

Lemma wp_utcnow Q w : Q (Ok (sys_utcnow S (w_ext w))) w [] → wp (utcnow S) Q w.
Proof. done. Qed.

Lemma wp_run cmd h Q w :
  (∀ out x, Q (Ok out) (set_ext w x) [EvRun cmd h 0 out]) →
  (∀ code out x,
     code ≠ 0 → Q (Raise (Failure cmd code)) (set_ext w x) [EvRun cmd h code out]) →
  wp (run S cmd h) Q w.
Proof.
  intros H1 H2. unfold wp, run.
  destruct (sys_exec S cmd (w_cwd w) (w_environ w) (w_ext w)) as [[code out] x].
  destruct (Z.eqb_spec code 0) as [->|Hne]; [apply H1 | by apply H2].
Qed.

Lemma wp_mkdtemp Q w :
  (∀ d x, Q (Ok d) (set_ext w x) [EvMkdtemp (Some d)]) →
  (∀ x, Q (Raise (OSError "mkdtemp" "")) (set_ext w x) [EvMkdtemp None]) →
  wp (mkdtemp S) Q w.
Proof.
  intros H1 H2. unfold wp, mkdtemp.
  destruct (sys_mkdtemp S (w_ext w)) as [[d|] x]; [apply H1 | apply H2].
Qed.

Lemma wp_chdir path Q w :
  Q (Ok tt) (World path (w_environ w) (w_ext w)) [EvChdir path true] →
  Q (Raise (OSError "chdir" path)) w [EvChdir path false] →
  wp (chdir S path) Q w.
Proof.
  intros H1 H2. unfold wp, chdir.
  by destruct (sys_chdir S path (w_cwd w) (w_ext w)).
Qed.

Lemma wp_rmtree path Q w :
  (∀ x, Q (Ok tt) (set_ext w x) [EvRmtree path]) → wp (rmtree S path) Q w.
Proof. intros H. apply H. Qed.

Lemma wp_makedirs path Q w :
  (∀ x, Q (Ok tt) (set_ext w x) [EvMakedirs path true]) →
  (∀ x, Q (Raise (OSError "makedirs" path)) (set_ext w x) [EvMakedirs path false]) →
  wp (makedirs S path) Q w.
Proof.
  intros H1 H2. unfold wp, makedirs.
  destruct (sys_makedirs S path (w_cwd w) (w_ext w)) as [[] x]; [apply H1 | apply H2].
Qed.

Lemma wp_listdir path Q w :
  (∀ l, Q (Ok l) w [EvListdir path (Some l)]) →
  Q (Raise (OSError "listdir" path)) w [EvListdir path None] →
  wp (listdir S path) Q w.
Proof.
  intros H1 H2. unfold wp, listdir.
  destruct (sys_listdir S path (w_cwd w) (w_ext w)); [apply H1 | apply H2].
Qed.

Lemma wp_move src dst Q w :
  (∀ x, Q (Ok tt) (set_ext w x) [EvMove src dst true]) →
  (∀ x, Q (Raise (OSError "move" src)) (set_ext w x) [EvMove src dst false]) →
  wp (move S src dst) Q w.
Proof.
  intros H1 H2. unfold wp, move.
  destruct (sys_move S src dst (w_cwd w) (w_ext w)) as [[] x]; [apply H1 | apply H2].
Qed.

Lemma wp_write_file path content Q w :
  (∀ x, Q (Ok tt) (set_ext w x) [EvWrite path content true]) →
  (∀ x, Q (Raise (OSError "open" path)) (set_ext w x) [EvWrite path content false]) →
  wp (write_file S path content) Q w.
Proof.
  intros H1 H2. unfold wp, write_file.
  destruct (sys_write S path content (w_cwd w) (w_ext w)) as [[] x]; [apply H1 | apply H2].
Qed.

End Logic.

(** ** Facts about the string operations *)

Module PyFacts.
Import Tasks.

Lemma append_empty_r (s : string) : s +:+ "" = s.
Proof.
  induction s as [|c s IH]; [done|].
  change (String c (s +:+ "") = String c s). by rewrite IH.
Qed.

Lemma append_cons c (s t : string) : String c s +:+ t = String c (s +:+ t).
Proof. done. Qed.

Lemma append_assoc (a b c : string) : (a +:+ b) +:+ c = a +:+ (b +:+ c).
Proof.
  induction a as [|x a IH]; [done|].
  rewrite !append_cons. by rewrite IH.
Qed.

(** Strings none of whose characters satisfies [p]. *)
Fixpoint free_of (p : ascii → bool) (s : string) : bool :=
  match s with
  | EmptyString => true
  | String c r => negb (p c) && free_of p r
  end.

Lemma fields_free p s : free_of p s = true → Py.fields p s = [s].
Proof.
  induction s as [|c s IH]; [done|]. simpl.
  intros [Hc Hs]%andb_prop. apply negb_true_iff in Hc. rewrite Hc.
  by rewrite (IH Hs).
Qed.

Lemma fields_app p a c b :
  free_of p a = true → p c = true →
  Py.fields p (a +:+ String c b) = a :: Py.fields p b.
Proof.
  intros Ha Hc. induction a as [|x a IH].
  - change (Py.fields p (String c b) = "" :: Py.fields p b). simpl. by rewrite Hc.
  - simpl in Ha. apply andb_prop in Ha as [Hx Ha]. apply negb_true_iff in Hx.
    rewrite append_cons. simpl. rewrite Hx. by rewrite (IH Ha).
Qed.

(** The decimal digits of a natural number, as [str] prints them. *)
Definition dec (n : N) : string := NilEmpty.string_of_uint (N.to_uint n).

Definition is_digit (c : ascii) : bool :=
  let n := nat_of_ascii c in (48 <=? n)%nat && (n <=? 57)%nat.

Fixpoint all_digits (s : string) : bool :=
  match s with
  | EmptyString => true
  | String c r => is_digit c && all_digits r
  end.

Lemma all_digits_uint d : all_digits (NilEmpty.string_of_uint d) = true.
Proof. induction d; simpl; auto. Qed.

Lemma all_digits_free p s :
  (∀ c, is_digit c = true → p c = false) →
  all_digits s = true → free_of p s = true.
Proof.
  intros Hp. induction s as [|c s IH]; [done|]. simpl.
  intros [Hc Hs]%andb_prop. rewrite (Hp c Hc). simpl. auto.
Qed.

Lemma digit_not_dot c : is_digit c = true → Ascii.eqb "." c = false.
Proof.
  intros H. destruct (Ascii.eqb_spec "." c) as [<-|]; [|done].
  vm_compute in H. discriminate.
Qed.

Lemma str_of_N n : Py.str (Z.of_N n) = dec n.
Proof.
  destruct n as [|p]; [done|]. unfold Py.str, dec. simpl.
  unfold NilZero.string_of_uint.
  destruct (Pos.to_uint p) eqn:E; try done.
  by destruct (Unsigned.to_uint_nonnil p).
Qed.

Lemma dec_nonempty n : dec n ≠ "".
Proof.
  unfold dec. destruct n as [|p]; [done|]. simpl.
  pose proof (Unsigned.to_uint_nonnil p). by destruct (Pos.to_uint p).
Qed.

Lemma digits_dec n : Py.digits (dec n) = Some (Z.of_N n).
Proof.
  unfold Py.digits. pose proof (dec_nonempty n) as Hn.
  destruct (dec n) eqn:E; [done|]. rewrite <- E. unfold dec.
  rewrite NilEmpty.usu. simpl. by rewrite DecimalN.Unsigned.of_to.
Qed.

Lemma int_digits s : all_digits s = true → Py.int s = Py.digits s.
Proof.
  destruct s as [|c s]; [done|]. simpl all_digits.
  intros [Hc _]%andb_prop. unfold Py.int.
  destruct c as [[] [] [] [] [] [] [] []]; try done.
Qed.

Lemma int_dec n : Py.int (dec n) = Some (Z.of_N n).
Proof. rewrite int_digits; [apply digits_dec | apply all_digits_uint]. Qed.

Lemma int_str z : Py.int (Py.str z) = Some z.
Proof.
  destruct z as [|p|p].
  - done.
  - change (Z.pos p) with (Z.of_N (N.pos p)). rewrite str_of_N. apply int_dec.
  - change (Py.str (Z.neg p)) with (String "-" (Py.str (Z.of_N (N.pos p)))).
    rewrite str_of_N. unfold Py.int. by rewrite digits_dec.
Qed.

Lemma str_dot_free z : free_of (Ascii.eqb ".") (Py.str z) = true.
Proof.
  assert (H : ∀ n, free_of (Ascii.eqb ".") (dec n) = true).
  { intros n. apply all_digits_free; [apply digit_not_dot | apply all_digits_uint]. }
  destruct z as [|p|p].
  - done.
  - change (Z.pos p) with (Z.of_N (N.pos p)). rewrite str_of_N. apply H.
  - change (Py.str (Z.neg p)) with (String "-" (Py.str (Z.of_N (N.pos p)))).
    rewrite str_of_N. simpl. apply H.
Qed.

(** [strftime]'s two-digit fields read back as the numbers they print. *)
Lemma int_pad2 n : Py.int (pad2 n) = Some (Z.of_N n).
Proof.
  unfold pad2. destruct (n <? 10)%N; rewrite str_of_N.
  - change ("0" +:+ dec n) with (String "0" (dec n)).
    unfold Py.int, Py.digits. unfold dec at 1. simpl.
    rewrite NilEmpty.usu. simpl. f_equal. f_equal. apply DecimalN.Unsigned.of_to.
  - apply int_dec.
Qed.

Lemma pad2_dot_free n : free_of (Ascii.eqb ".") (pad2 n) = true.
Proof.
  unfold pad2. destruct (n <? 10)%N; [|apply str_dot_free].
  change ("0" +:+ Py.str (Z.of_N n)) with (String "0" (Py.str (Z.of_N n))).
  simpl. apply str_dot_free.
Qed.

End PyFacts.

(** ** Specifications of the helpers of the tasks *)

Module Rules.
Import Tasks PyFacts.

(** The version series: the year within its century and the month, as
    decimal integers, joined by a dot. *)
Definition series (now : datetime) : string :=
  Py.str (Z.of_N (year now mod 100)) +:+ "." +:+ Py.str (Z.of_N (month now)).

Lemma to_int_str z : to_int (Py.str z) = Ok z.
Proof. unfold to_int. by rewrite int_str. Qed.

Lemma to_int_pad2 n : to_int (pad2 n) = Ok (Z.of_N n).
Proof. unfold to_int. by rewrite int_pad2. Qed.

Lemma int_components_strftime now :
  int_components (strftime_ym now) = Ok (series now).
Proof.
  unfold int_components, strftime_ym, Py.split.
  change ("." +:+ pad2 (month now)) with (String "." (pad2 (month now))).
  rewrite fields_app; [|apply pad2_dot_free|done].
  rewrite fields_free; [|apply pad2_dot_free].
  simpl. rewrite !to_int_pad2. reflexivity.
Qed.

Lemma int_components_version now n :
  int_components (Py.join "." [series now; Py.str n])
  = Ok (series now +:+ "." +:+ Py.str n).
Proof.
  set (a := Py.str (Z.of_N (year now mod 100))).
  set (b := Py.str (Z.of_N (month now))).
  assert (E : Py.join "." [series now; Py.str n]
              = a +:+ String "." (b +:+ String "." (Py.str n))).
  { unfold series. simpl Py.join. fold a b. by rewrite !append_assoc. }
  assert (E' : series now +:+ "." +:+ Py.str n = Py.join "." [a; b; Py.str n]).
  { unfold series. simpl Py.join. fold a b. by rewrite !append_assoc. }
  rewrite E, E'. unfold int_components, Py.split.
  rewrite fields_app; [|apply str_dot_free|done].
  rewrite fields_app; [|apply str_dot_free|done].
  rewrite fields_free; [|apply str_dot_free].
  unfold a, b. cbn [map_int_str]. rewrite !to_int_str. reflexivity.
Qed.

(** *** What the format calls of the script return *)

Definition banner (name message : string) : string :=
  "[" +:+ Py.esc +:+ "[1;37m" +:+ name +:+ Py.esc +:+ "[0m] " +:+ message.

Ltac compute_format :=
  unfold Py.format; simpl; rewrite ?append_empty_r; reflexivity.

Lemma format_banner name message :
  Py.format ("[" +:+ Py.esc +:+ "[1;37m{}" +:+ Py.esc +:+ "[0m] {}") [name; message] []
  = Some (banner name message).
Proof. compute_format. Qed.

Lemma format_checkout_index tmpdir :
  Py.format "git checkout-index -f -a --prefix={}" [tmpdir] []
  = Some ("git checkout-index -f -a --prefix=" +:+ tmpdir).
Proof. compute_format. Qed.

Lemma format_running_tests envs :
  Py.format "Running tests: {}" [envs] [] = Some ("Running tests: " +:+ envs).
Proof. compute_format. Qed.

Lemma format_running_the env :
  Py.format "Running the {} tests" [env] [] = Some ("Running the " +:+ env +:+ " tests").
Proof. compute_format. Qed.

Lemma format_tox_e env :
  Py.format "tox -e {}" [env] [] = Some ("tox -e " +:+ env).
Proof. compute_format. Qed.

Lemma format_tag_l series :
  Py.format "git tag -l 'v{}.*'" [series] [] = Some ("git tag -l 'v" +:+ series +:+ ".*'").
Proof. compute_format. Qed.

Lemma format_new_release version :
  Py.format "New release will be version {}" [version] []
  = Some ("New release will be version " +:+ version).
Proof. compute_format. Qed.

Lemma format_build_tag build :
  Py.format "Using build tag: '{}'" [build] []
  = Some ("Using build tag: '" +:+ build +:+ "'").
Proof. compute_format. Qed.

Lemma format_commit_release version build :
  Py.format "git commit -m 'Generate the release __about__.py (version={} build={})'"
    [version; build] []
  = Some ("git commit -m 'Generate the release __about__.py (version=" +:+ version
          +:+ " build=" +:+ build +:+ ")'").
Proof. compute_format. Qed.

Lemma format_tag_s version build :
  Py.format "git tag -s -m 'Released version v{0} ({1})' v{0}" [version; build] []
  = Some ("git tag -s -m 'Released version v" +:+ version +:+ " (" +:+ build
          +:+ ")' v" +:+ version).
Proof. compute_format. Qed.

Lemma format_checkout_v version :
  Py.format "git checkout v{}" [version] [] = Some ("git checkout v" +:+ version).
Proof. compute_format. Qed.

Lemma format_checkout branch :
  Py.format "git checkout {}" [branch] [] = Some ("git checkout " +:+ branch).
Proof. compute_format. Qed.

Lemma format_setup dist_type :
  Py.format "python setup.py {}" [dist_type] [] = Some ("python setup.py " +:+ dist_type).
Proof. compute_format. Qed.

Lemma format_generated dist_type filename :
  Py.format "Generated {} ({})" [dist_type; filename] []
  = Some ("Generated " +:+ dist_type +:+ " (" +:+ filename +:+ ")").
Proof. compute_format. Qed.

(** The two arguments have no field to go to. *)
Lemma format_commit_dev version build :
  Py.format "git commit -m 'Generate the development __about__.py'" [version; build] []
  = Some "git commit -m 'Generate the development __about__.py'".
Proof. compute_format. Qed.

Lemma format_uploading repository :
  Py.format "Uploading to {}" [repository] [] = Some ("Uploading to " +:+ repository).
Proof. compute_format. Qed.

Lemma format_r repository :
  Py.format " -r {}" [repository] [] = Some (" -r " +:+ repository).
Proof. compute_format. Qed.

Lemma format_twine option :
  Py.format "twine upload --sign{} dist/*" [option] []
  = Some ("twine upload --sign" +:+ option +:+ " dist/*").
Proof. compute_format. Qed.

(** *** The generated [warehouse/__about__.py] *)

Definition text_before (mark s : string) : string :=
  match index 0 mark s with
  | Some i => substring 0 i s
  | None => s
  end.

Definition text_after (mark s : string) : string :=
  match index 0 mark s with
  | Some i =>
      let k := (i + String.length mark)%nat in
      substring k (String.length s - k) s
  | None => EmptyString
  end.

(** The rendered file up to the assignment of [__version__], and after the
    one of [__build__]. *)
Definition about_head : string :=
  Eval vm_compute in
    Py.lstrip (text_before "__version__ = " (Py.dedent about_source)).

Definition about_tail : string :=
  Eval vm_compute in
    text_after ("{build}" +:+ Py.dquote +:+ Py.nl) (Py.dedent about_source).

Definition about_file (version build : string) : string :=
  about_head
  +:+ "__version__ = " +:+ Py.dquote +:+ version +:+ Py.dquote +:+ Py.nl
  +:+ "__build__ = " +:+ Py.dquote +:+ build +:+ Py.dquote +:+ Py.nl
  +:+ about_tail.

Lemma format_about version build :
  ∃ text,
    Py.format (Py.dedent about_source) [] [("version", version); ("build", build)]
    = Some text
    ∧ Py.lstrip text = about_file version build.
Proof. eexists. split; vm_compute; reflexivity. Qed.

Create HintDb pyformat.
#[global] Hint Resolve format_banner format_checkout_index format_running_tests
  format_running_the format_tox_e format_tag_l format_new_release
  format_build_tag format_commit_release format_tag_s format_checkout_v
  format_checkout format_setup format_generated format_commit_dev
  format_uploading format_r format_twine : pyformat.

Section TaskRules.
Context {X : Type} (S : System X).

Lemma wp_out name message (Q : result unit → world X → list event → Prop) w :
  Q (Ok tt) w [EvPrint (banner name message)] → wp (_out name message) Q w.
Proof.
  intros H. unfold _out. apply wp_bind.
  eapply wp_format; [apply format_banner|]. by apply wp_print.
Qed.

Lemma wp_render_about path version build
    (Q : result unit → world X → list event → Prop) w :
  (∀ x, Q (Ok tt) (set_ext w x) [EvWrite path (about_file version build) true]) →
  (∀ x, Q (Raise (OSError "open" path)) (set_ext w x)
          [EvWrite path (about_file version build) false]) →
  wp (render_about S (Py.dedent about_source) path version build) Q w.
Proof.
  intros H1 H2. unfold render_about. apply wp_bind.
  destruct (format_about version build) as (text & Et & E).
  eapply wp_format; [exact Et|].
  rewrite E. apply wp_write_file; auto.
Qed.

Lemma wp_set_pop (s : gset string)
    (Q : result string → world X → list event → Prop) w :
  match head (elements s) with
  | Some x => Q (Ok x) w []
  | None => Q (Raise (KeyError "pop from an empty set")) w []
  end →
  wp (set_pop s) Q w.
Proof. apply wp_expect. Qed.

End TaskRules.

Ltac wp_simpl :=
  cbv beta iota;
  cbn [w_cwd w_environ w_ext set_ext o_res o_world o_trace].

Ltac wp_step :=
  lazymatch goal with
  | |- wp (mbind _ _) _ _ => apply wp_bind
  | |- wp (ret _) _ _ => apply wp_ret
  | |- wp (mret _) _ _ => apply wp_mret
  | |- wp (raise _) _ _ => apply wp_raise
  | |- wp (_out _ _) _ _ => apply wp_out
  | |- wp (render_about _ _ _ _ _) _ _ => apply wp_render_about; intros ?
  | |- wp (format _ _ _) _ _ => eapply wp_format; [solve [auto with pyformat nocore]|]
  | |- wp (lift (int_components (strftime_ym _))) _ _ =>
      rewrite int_components_strftime; apply wp_lift
  | |- wp (lift (int_components (Py.join _ [series _; Py.str _]))) _ _ =>
      rewrite int_components_version; apply wp_lift
  | |- wp (lift (next_version_num ?tags)) _ _ =>
      let n := fresh "n" in
      let E := fresh "En" in
      apply wp_lift; destruct (next_version_num tags) as [n|] eqn:E
  | |- wp (print _) _ _ => apply wp_print
  | |- wp (setenv _ _) _ _ => apply wp_setenv
  | |- wp getcwd _ _ => apply wp_getcwd
  | |- wp (abspath _) _ _ => apply wp_abspath
  | |- wp (utcnow _) _ _ => apply wp_utcnow
  | |- wp (run _ _ _) _ _ =>
      let code := fresh "code" in
      let out := fresh "out" in
      let E := fresh "Hcode" in
      apply wp_run; [intros out ?|intros code out ? E]
  | |- wp (mkdtemp _) _ _ => apply wp_mkdtemp; [intros ? ?|intros ?]
  | |- wp (chdir _ _) _ _ => apply wp_chdir
  | |- wp (rmtree _ _) _ _ => apply wp_rmtree; intros ?
  | |- wp (makedirs _ _) _ _ => apply wp_makedirs; intros ?
  | |- wp (listdir _ _) _ _ => apply wp_listdir; [intros ?|]
  | |- wp (move _ _ _) _ _ => apply wp_move; intros ?
  | |- wp (try_finally _ _) _ _ => apply wp_try_finally
  | |- wp (for_each [] _) _ _ => apply wp_for_nil
  | |- wp (for_each (_ :: _) _) _ _ => apply wp_for_cons
  | |- wp (set_pop ?s) _ _ =>
      apply wp_set_pop; destruct (head (elements s)) eqn:?
  | |- wp (if ?b then _ else _) _ _ => destruct b eqn:?
  | |- wp (match ?o with Some _ => _ | None => _ end) _ _ => destruct o eqn:?
  end; wp_simpl.

End Rules.

(** ** What the traces of the tasks are checked against *)

Module Properties.
Import Tasks PyFacts Rules.

#[global] Instance hide_eq_dec : EqDecision hide.
Proof. solve_decision. Defined.

#[global] Instance event_eq_dec : EqDecision event.
Proof. solve_decision. Defined.

Ltac trace_simpl := cbn [app] in *; rewrite <- ?app_assoc; cbn [app].

(** [x ∈ l] for a list given by its items and appended segments. *)
Ltac elem_of_trace :=
  solve [ repeat first
            [ apply list_elem_of_here
            | apply list_elem_of_further
            | apply elem_of_app; right ] ].

(** *** The temporary directory *)

(** Every directory [mkdtemp] returned is removed later in the trace. *)
Definition removed_after (t : list event) : Prop :=
  ∀ pre d post,
    t = pre ++ EvMkdtemp (Some d) :: post → EvRmtree (with_slash d) ∈ post.

Lemma removed_nil : removed_after [].
Proof. intros [|] ? ? ?; discriminate. Qed.

Lemma removed_cons_other e t :
  (∀ d, e ≠ EvMkdtemp (Some d)) → removed_after t → removed_after (e :: t).
Proof.
  intros He Ht [|e' pre] d post E; simplify_eq/=.
  - by destruct (He d).
  - by eapply Ht.
Qed.

Lemma removed_cons_mkdtemp d t :
  EvRmtree (with_slash d) ∈ t → removed_after t →
  removed_after (EvMkdtemp (Some d) :: t).
Proof.
  intros Hd Ht [|e' pre] d' post E; simplify_eq/=; [done|]. by eapply Ht.
Qed.

Lemma removed_app t1 t2 :
  removed_after t1 → removed_after t2 → removed_after (t1 ++ t2).
Proof.
  intros H1 H2 pre d post E.
  apply app_eq_inv in E as [(k & -> & E)|(k & -> & E)].
  - destruct k as [|e k]; simplify_eq/=.
    + by eapply (H2 []).
    + apply elem_of_app. left. by eapply H1.
  - by eapply H2.
Qed.

Ltac removed :=
  repeat first
    [ apply removed_nil
    | assumption
    | apply removed_cons_mkdtemp; [elem_of_trace|]
    | apply removed_cons_other; [discriminate|]
    | apply removed_app ].

(** *** The environment *)

Definition env_after (database : option string) (env : gmap string string)
    : gmap string string :=
  match database with
  | Some url =>
      if Py.nonempty url then <["WAREHOUSE_DATABASE_URL" := url]> env else env
  | None => env
  end.

(** *** The test environments *)

(** The environment a command tests, when it is [tox -e env]. *)
Definition tox_env (cmd : string) : option string :=
  if Py.startswith cmd "tox -e " then Some (Py.drop_chars 7 cmd) else None.

Definition run_env (e : event) : option string :=
  match e with
  | EvRun cmd _ _ _ => tox_env cmd
  | _ => None
  end.

(** The environments run, in the order of the trace. *)
Definition tests_run (t : list event) : list string := omap run_env t.

(** What the loop of the test task iterates over. *)
Definition test_plan (listing : string) : list string :=
  elements (list_to_set (Py.split_ws listing) ∖ {["packaging"]} : gset string).



Lemma tests_run_app t1 t2 : tests_run (t1 ++ t2) = tests_run t1 ++ tests_run t2.
Proof. apply omap_app. Qed.

Lemma tests_run_skip e t : run_env e = None → tests_run (e :: t) = tests_run t.
Proof. unfold tests_run. simpl. by intros ->. Qed.

Lemma tests_run_tox env h code out t :
  tests_run (EvRun ("tox -e " +:+ env) h code out :: t) = env :: tests_run t.
Proof. reflexivity. Qed.

Ltac tests_run_simpl :=
  repeat first
    [ rewrite tests_run_app
    | rewrite tests_run_tox
    | rewrite tests_run_skip by reflexivity
    | progress change (tests_run []) with (@nil string) ].

(** The runs of the test task: none when it stopped before the loop; else
    the loop went through its plan, to the end if the task returned. *)
Definition test_runs (r : result unit) (t : list event) : Prop :=
  (r ≠ Ok tt ∧ tests_run t = [])
  ∨ ∃ h listing,
      EvRun "tox -l" h 0 listing ∈ t
      ∧ tests_run t `prefix_of` test_plan listing
      ∧ (r = Ok tt → tests_run t = test_plan listing).

(** *** Failing commands *)

(** What follows a failing command and what the task raises: nothing more
    and the command's [Failure]; or, when a temporary directory was made,
    the cleanup block: the return to the directory [c] and the removal, or
    that return alone when it raises. *)
Definition abort_shape (c : string) (r : result unit) (pre : list event)
    (cmd : string) (code : Z) (post : list event) : Prop :=
  (post = [] ∧ r = Raise (Failure cmd code))
  ∨ (∃ d, EvMkdtemp (Some d) ∈ pre
          ∧ post = [EvChdir c true; EvRmtree (with_slash d)]
          ∧ r = Raise (Failure cmd code))
  ∨ (∃ d, EvMkdtemp (Some d) ∈ pre
          ∧ post = [EvChdir c false]
          ∧ r = Raise (OSError "chdir" c)).

(** The trace [t], which follows the events [acc], aborts at every failing
    command. *)
Definition aborts_from (acc : list event) (c : string) (r : result unit)
    (t : list event) : Prop :=
  ∀ pre cmd h code out post,
    t = pre ++ EvRun cmd h code out :: post → code ≠ 0 →
    abort_shape c r (acc ++ pre) cmd code post.

Definition aborts_at (c : string) (r : result unit) (t : list event) : Prop :=
  aborts_from [] c r t.

(** An event other than a failing command. *)
Definition passes (e : event) : Prop :=
  ∀ cmd h code out, e = EvRun cmd h code out → code = 0.

Lemma aborts_nil acc c r : aborts_from acc c r [].
Proof. intros [|] ? ? ? ? ? ?; discriminate. Qed.

Lemma aborts_cons_pass acc c r e t :
  passes e → aborts_from (acc ++ [e]) c r t → aborts_from acc c r (e :: t).
Proof.
  intros He Ht [|e' pre] cmd h code out post E Hc; simplify_eq/=.
  - by destruct Hc, (He cmd h code out).
  - rewrite cons_middle, app_assoc. by eapply Ht.
Qed.

Lemma aborts_cons_fail acc c r cmd h code out post :
  Forall passes post → abort_shape c r acc cmd code post →
  aborts_from acc c r (EvRun cmd h code out :: post).
Proof.
  intros Hp Hs [|e' pre] cmd' h' code' out' post' E Hc; simplify_eq/=.
  - by rewrite app_nil_r.
  - rewrite Forall_app, Forall_cons in Hp. destruct Hp as (_ & Hp & _).
    by destruct Hc, (Hp cmd' h' code' out').
Qed.

Lemma aborts_app acc c r t1 t2 :
  Forall passes t1 → aborts_from (acc ++ t1) c r t2 →
  aborts_from acc c r (t1 ++ t2).
Proof.
  revert acc. induction t1 as [|e t1 IH]; intros acc H1 H2.
  - by rewrite app_nil_r in H2.
  - apply Forall_cons in H1 as [He H1]. simpl.
    apply aborts_cons_pass; [done|]. apply IH; [done|].
    by rewrite <- app_assoc.
Qed.

Lemma aborts_mono acc c r t : aborts_at c r t → aborts_from acc c r t.
Proof.
  intros H pre cmd h code out post E Hc.
  destruct (H pre cmd h code out post E Hc) as [?|[(d & ? & ?)|(d & ? & ?)]].
  - by left.
  - right; left. exists d. split; [|done]. apply elem_of_app. by right.
  - right; right. exists d. split; [|done]. apply elem_of_app. by right.
Qed.

Lemma aborts_Ok_passes c t : aborts_at c (Ok tt) t → Forall passes t.
Proof.
  intros H. apply Forall_forall. intros e He cmd h code out ->.
  apply list_elem_of_split in He as (pre & post & ->).
  destruct (decide (code = 0)) as [|Hc]; [done|].
  by destruct (H pre cmd h code out post eq_refl Hc)
    as [[_ ?]|[(d & _ & _ & ?)|(d & _ & _ & ?)]].
Qed.

(** A task after one that returned. *)
Lemma aborts_seq c r t1 t2 :
  aborts_at c (Ok tt) t1 → aborts_at c r t2 → aborts_at c r (t1 ++ t2).
Proof.
  intros H1 H2. apply aborts_app; [by eapply aborts_Ok_passes|].
  by apply aborts_mono.
Qed.

Ltac passes_tac :=
  let E := fresh in
  intros ? ? ? ? E;
  first [discriminate E | injection E as <- <- <- <-; reflexivity].

Ltac all_pass :=
  repeat first
    [ by apply Forall_nil
    | apply Forall_cons; split; [passes_tac|]
    | apply Forall_app; split; [assumption|] ].

Ltac shape_tac :=
  first
    [ left; split; reflexivity
    | right; left; eexists; split; [elem_of_trace|split; reflexivity]
    | right; right; eexists; split; [elem_of_trace|split; reflexivity] ].

Ltac aborts_tac :=
  repeat first
    [ apply aborts_nil
    | apply aborts_cons_pass; [passes_tac|]
    | apply aborts_cons_fail;
        [solve [all_pass]|trace_simpl; shape_tac]
    | apply aborts_app; [assumption|] ].

(** What the tasks guarantee, towards the tasks run after them. *)
Definition abort_spec {X} (c : string) (r : result unit) (w' : world X)
    (t : list event) : Prop :=
  aborts_at c r t ∧ (r = Ok tt → w_cwd w' = c).

(** *** The tasks in sequence *)

Section MonadLaws.
Context {X : Type}.

Lemma bind_pure {A B} (m : M X A) (a : A) (f : A → M X B) w :
  m w = Outcome (Ok a) w [] → (m ≫= f) w = f a w.
Proof.
  intros E. unfold mbind, M_bind, bind. rewrite E. simpl. by destruct (f a w).
Qed.

Lemma bind_ret_r (m : M X unit) w : (m ≫= λ _, ret tt) w = m w.
Proof.
  unfold mbind, M_bind, bind. destruct (m w) as [[[]|e] w' t]; simpl; [|done].
  by rewrite app_nil_r.
Qed.

Lemma bind_ext {A B} (m : M X A) (f g : A → M X B) w :
  (∀ a w', f a w' = g a w') → (m ≫= f) w = (m ≫= g) w.
Proof.
  intros H. unfold mbind, M_bind, bind.
  destruct (o_res (m w)); [|done]. by rewrite H.
Qed.

End MonadLaws.

(** *** Versions and metadata of the build *)

Definition hide_of (verbose : bool) : hide :=
  if negb verbose then HideOut else HideNone.

(** [about_path]. *)
Definition about_path (module_file cwd : string) : string :=
  Path.join (Path.abspath cwd (Path.dirname module_file))
            ["warehouse"; "__about__.py"].

(** How every run of the build starts: the tags of the series are listed;
    when that succeeds and the latest tag has a counter, the new version is
    announced. *)
Definition announces_version (now : datetime) (verbose : bool)
    (t : list event) : Prop :=
  ∃ code tags rest,
    t = EvRun ("git tag -l 'v" +:+ series now +:+ ".*'") (hide_of verbose) code tags
        :: rest
    ∧ (rest = []
       ∨ ∃ n rest',
           next_version_num tags = Ok n
           ∧ rest = EvPrint (banner "release.build"
                       ("New release will be version "
                        +:+ series now +:+ "." +:+ Py.str n)) :: rest').

(** The first file a run of the build writes, with the calls before it. *)
Definition writes_release_about (about : string) (verbose : bool)
    (t : list event) : Prop :=
  ∃ listed announced rev version ok rest,
    t = [listed; announced;
         EvRun "git rev-parse HEAD" (hide_of verbose) 0 rev;
         EvPrint (banner "release.build"
                    ("Using build tag: '" +:+ Py.slice_to 7 rev +:+ "'"));
         EvWrite about (about_file version (Py.slice_to 7 rev)) ok] ++ rest.

(** How a run of the build that returns ends. *)
Definition ends_in_development (now : datetime) (about : string)
    (verbose : bool) (t : list event) : Prop :=
  ∃ n build pre listing1 listing2 out1 out2,
    let h := hide_of verbose in
    let released := series now +:+ "." +:+ Py.str n in
    let next := (series now +:+ "." +:+ Py.str (n + 1)) +:+ ".dev0" in
    t = pre ++
        [EvWrite about (about_file next "<development>") true;
         EvRun "git add warehouse/__about__.py" h 0 out1;
         EvRun "git commit -m 'Generate the development __about__.py'" h 0 out2;
         EvPrint (banner "release.build"
                    "warehouse/__about__.py generated with development values")]
    ∧ EvWrite about (about_file released build) true ∈ pre
    ∧ EvListdir "dist" (Some listing1) ∈ pre
    ∧ EvRun "python setup.py sdist" h 0 listing2 ∈ pre
    ∧ (∃ out tmp target, EvRun "python setup.py bdist_wheel" h 0 out ∈ pre
                         ∧ EvMove tmp target true ∈ pre).

(** *** The test task, path by path *)

Definition test_post {X} (w : world X) (database : option string)
    (r : result unit) (w' : world X) (t : list event) : Prop :=
  w_environ w' = env_after database (w_environ w)
  ∧ (EvChdir (w_cwd w) false ∉ t → w_cwd w' = w_cwd w ∧ removed_after t)
  ∧ test_runs r t
  ∧ abort_spec (w_cwd w) r w' t.

Definition test_loop_inv {X} (w : world X) (database : option string)
    (seen : list string) (w1 : world X) (t : list event) : Prop :=
  w_environ w1 = env_after database (w_environ w)
  ∧ removed_after t
  ∧ tests_run t = seen
  ∧ Forall passes t.

Ltac environ_leaf :=
  cbn [w_environ set_ext];
  first
    [ assumption
    | unfold env_after;
      repeat match goal with H : Py.nonempty _ = _ |- _ => rewrite H end;
      reflexivity ].

Ltac frame_leaf :=
  let H := fresh in
  intros H;
  first [ split; [reflexivity|solve [removed]]
        | exfalso; apply H; elem_of_trace ].

Ltac runs_leaf :=
  first
    [ left; split; [discriminate|tests_run_simpl; reflexivity]
    | right; eexists _, _; split; [elem_of_trace|];
      tests_run_simpl; rewrite ?app_nil_r;
      repeat match goal with H : tests_run _ = _ |- _ => rewrite H end;
      split; [|done || discriminate];
      first [ done
            | unfold test_plan;
              repeat match goal with H : elements _ = _ |- _ => rewrite H end;
              apply prefix_app, prefix_cons, prefix_nil ] ].

Ltac abort_leaf :=
  split; [unfold aborts_at; aborts_tac|try done; try discriminate].

Section TestTask.
Context {X : Type} (S : System X).

Lemma test_spec database verbose w :
  wp (release_test S database verbose) (test_post w database) w.
Proof.
  unfold release_test. repeat wp_step.
  all: try match goal with
       | |- wp (for_each _ _) _ _ =>
           lazymatch goal with
           | |- context [test_post ?w0 ?db] =>
               apply wp_for_each with (I := test_loop_inv w0 db)
           end; [|intros ? ? ? ? ? ? (?&?&?&?); repeat wp_step
                 |intros ? ? (?&?&?&?); repeat wp_step]
       end.
  all: trace_simpl.
  all: lazymatch goal with
       | |- test_post _ _ _ _ _ =>
           split; [environ_leaf|split; [frame_leaf|split; [runs_leaf|abort_leaf]]]
       | |- test_loop_inv _ _ _ _ _ =>
           repeat match goal with H : test_loop_inv _ _ _ _ _ |- _ =>
             destruct H as (?&?&?&?) end;
           split; [environ_leaf
                  |split; [solve [removed]
                          |split; [tests_run_simpl; by f_equal|solve [all_pass]]]]
       end.
Qed.

Lemma upload_spec repository verbose w :
  wp (release_upload S repository verbose)
     (λ r w' t, w_environ w' = w_environ w ∧ abort_spec (w_cwd w) r w' t) w.
Proof.
  unfold release_upload. repeat wp_step.
  all: trace_simpl; split; [reflexivity|abort_leaf].
Qed.

End TestTask.

(** *** The build task, path by path *)

Definition build_post {X} (S : System X) (module_file : string) (verbose : bool)
    (w : world X) (r : result unit) (w' : world X) (t : list event) : Prop :=
  let now := sys_utcnow S (w_ext w) in
  let about := about_path module_file (w_cwd w) in
  w_environ w' = w_environ w
  ∧ (EvChdir (w_cwd w) false ∉ t → w_cwd w' = w_cwd w ∧ removed_after t)
  ∧ abort_spec (w_cwd w) r w' t
  ∧ announces_version now verbose t
  ∧ (∀ path content ok,
       EvWrite path content ok ∈ t → writes_release_about about verbose t)
  ∧ (r = Ok tt → ends_in_development now about verbose t).

Ltac announces_leaf :=
  eexists _, _, _; split; [reflexivity|];
  first [ by left | right; eexists _, _; split; [eassumption|reflexivity] ].

Ltac writes_leaf :=
  let Hin := fresh in
  intros ? ? ? Hin;
  first
    [ by repeat (apply elem_of_cons in Hin as [?|Hin]; [discriminate|]);
         apply elem_of_nil in Hin
    | eexists _, _, _, _, _, _; reflexivity ].

(** The items of a list before its last four. *)
Ltac before_last4 t k :=
  lazymatch t with
  | [_; _; _; _] => k (@nil event)
  | ?x :: ?r => before_last4 r ltac:(fun pre => k (x :: pre))
  end.

Ltac ends_leaf :=
  first
    [ by intros [=]
    | intros _;
      lazymatch goal with
      | _ : next_version_num _ = Ok ?n |- ends_in_development _ _ _ ?t =>
          before_last4 t ltac:(fun pre => exists n; eexists; exists pre)
      end;
      eexists _, _, _, _; cbv zeta; cbn [app]; split; [reflexivity|];
      split; [elem_of_trace|];
      split; [elem_of_trace|];
      split; [elem_of_trace|];
      eexists _, _, _; split; elem_of_trace ].

Section BuildTask.
Context {X : Type} (S : System X) (module_file : string).

Lemma build_spec verbose w :
  wp (release_build S module_file verbose) (build_post S module_file verbose w) w.
Proof.
  unfold release_build. repeat wp_step.
  all: trace_simpl.
  all: split; [reflexivity|].
  all: split; [frame_leaf|].
  all: split; [abort_leaf|].
  all: split; [announces_leaf|].
  all: split; [writes_leaf|ends_leaf].
Qed.

End BuildTask.

(** *** The task [all] *)

Section AllTask.
Context {X : Type} (S : System X) (module_file : string).

(** The keyword arguments a pre-task is called with. *)
Definition pre_kwargs (forward : bool) (kw : kwargs) : kwargs :=
  if forward then kw else no_kwargs.

Lemma execute_all forward kw w :
  execute forward (ns S module_file) "release.all" kw w
  = (release_test S (kw_database (pre_kwargs forward kw))
                    (kw_verbose (pre_kwargs forward kw));;
     release_build S module_file (kw_verbose (pre_kwargs forward kw));;
     release_upload S (kw_repository (pre_kwargs forward kw))
                      (kw_verbose (pre_kwargs forward kw))) w.
Proof.
  unfold execute.
  etransitivity; [by apply bind_pure|].
  etransitivity; [by apply bind_pure|].
  cbn [for_each t_body test_task build_task upload_task all_task].
  fold (pre_kwargs forward kw). unfold release_all.
  etransitivity; [apply bind_ret_r|].
  apply bind_ext; intros _ w1. apply bind_ext; intros _ w2.
  apply bind_ret_r.
Qed.

Lemma all_spec forward kw w :
  wp (execute forward (ns S module_file) "release.all" kw)
     (λ r w' t,
        w_environ w' = env_after (kw_database (pre_kwargs forward kw)) (w_environ w)
        ∧ aborts_at (w_cwd w) r t) w.
Proof.
  unfold wp. rewrite execute_all.
  set (kw' := pre_kwargs forward kw).
  apply wp_bind. eapply wp_mono; [apply test_spec|].
  intros r1 w1 t1 (Henv1 & _ & _ & Hab1 & Hcwd1).
  destruct r1 as [[]|e1]; [|done].
  specialize (Hcwd1 eq_refl).
  apply wp_bind. eapply wp_mono; [apply build_spec|].
  intros r2 w2 t2 (Henv2 & _ & (Hab2 & Hcwd2) & _).
  rewrite Hcwd1 in Hab2, Hcwd2.
  destruct r2 as [[]|e2].
  - specialize (Hcwd2 eq_refl).
    eapply wp_mono; [apply upload_spec|].
    intros r3 w3 t3 (Henv3 & Hab3 & _). rewrite Hcwd2 in Hab3.
    split; [congruence|]. by repeat apply aborts_seq.
  - split; [congruence|]. by apply aborts_seq.
Qed.

End AllTask.

(** *** The counter of the new version *)

Lemma next_version_num_no_tags tags :
  Py.split_ws tags = [] → next_version_num tags = Ok 0.
Proof. unfold next_version_num. by intros ->. Qed.

(** With tags, it is one more than the last field of the tag that
    [sorted] puts last. *)
Lemma next_version_num_latest tags latest field n :
  Py.last_item (Py.sorted (Py.split_ws tags)) = Some latest →
  Py.last_item (Py.rsplit "." latest) = Some field →
  Py.int field = Some n →
  next_version_num tags = Ok (n + 1).
Proof.
  unfold next_version_num, to_int. intros -> E1 E2. simpl.
  rewrite E1. simpl. by rewrite E2.
Qed.

(** ** The properties of the tasks *)

(** A decidable statement about a concrete run, by evaluation. *)
Ltac by_evaluation := apply (bool_decide_unpack _); vm_compute; reflexivity.

Section Claims.
Context {X : Type} (S : System X) (module_file : string).


(** C3. In each of the four tasks a command that exits with a nonzero
    status makes the task raise; no command is run after it, none is run
    again, and what follows is nothing, or the cleanup block of the
    temporary directory ([os.chdir(curdir)], then [shutil.rmtree(tmpdir)]
    unless the former raised). *)
Theorem failing_command_aborts (database repository : option string)
    (verbose forward : bool) (kw : kwargs) (w : world X) :
  let test := release_test S database verbose w in
  let build := release_build S module_file verbose w in
  let upload := release_upload S repository verbose w in
  let all := execute forward (ns S module_file) "release.all" kw w in
  aborts_at (w_cwd w) (o_res test) (o_trace test)
  ∧ aborts_at (w_cwd w) (o_res build) (o_trace build)
  ∧ aborts_at (w_cwd w) (o_res upload) (o_trace upload)
  ∧ aborts_at (w_cwd w) (o_res all) (o_trace all).
Proof.
  repeat split.
  - by destruct (test_spec S database verbose w) as (_ & _ & _ & ? & _).
  - by destruct (build_spec S module_file verbose w) as (_ & _ & [? _] & _).
  - by destruct (upload_spec S repository verbose w) as (_ & ? & _).
  - by destruct (all_spec S module_file forward kw w) as (_ & ?).
Qed.

(** C4, as the code has it. The build and upload tasks leave the
    environment variables as they were. The test task called with a
    non-empty database URL sets [WAREHOUSE_DATABASE_URL] to it, and that
    stays set when the task ends; with no URL it changes nothing. The task
    [all] changes what its test step changes. *)
Theorem environ_after_task (database repository : option string)
    (verbose forward : bool) (kw : kwargs) (w : world X) :
  w_environ (o_world (release_test S database verbose w))
    = env_after database (w_environ w)
  ∧ w_environ (o_world (release_build S module_file verbose w)) = w_environ w
  ∧ w_environ (o_world (release_upload S repository verbose w)) = w_environ w
  ∧ w_environ (o_world (execute forward (ns S module_file) "release.all" kw w))
    = env_after (kw_database (pre_kwargs forward kw)) (w_environ w).
Proof.
  repeat split.
  - by destruct (test_spec S database verbose w) as (? & _).
  - by destruct (build_spec S module_file verbose w) as (? & _).
  - by destruct (upload_spec S repository verbose w) as (? & _).
  - by destruct (all_spec S module_file forward kw w) as (? & _).
Qed.

(** C5. Executing [all] is running the test task, then the build task,
    then the upload task, and nothing else: same result, same final state,
    same trace. A step that raises ends the run. *)
Theorem all_is_test_build_upload (forward : bool) (kw : kwargs) (w : world X) :
  let kw' := pre_kwargs forward kw in
  execute forward (ns S module_file) "release.all" kw w
  = (release_test S (kw_database kw') (kw_verbose kw');;
     release_build S module_file (kw_verbose kw');;
     release_upload S (kw_repository kw') (kw_verbose kw')) w.
Proof. apply execute_all. Qed.



(** C8, as the code has it. The test task and the build task end in the
    working directory they started in, whether they return or raise,
    unless an attempt to return to it failed. *)
Theorem cwd_restored (database : option string) (verbose : bool) (w : world X) :
  let test := release_test S database verbose w in
  let build := release_build S module_file verbose w in
  (EvChdir (w_cwd w) false ∉ o_trace test → w_cwd (o_world test) = w_cwd w)
  ∧ (EvChdir (w_cwd w) false ∉ o_trace build → w_cwd (o_world build) = w_cwd w).
Proof.
  split; intros H.
  - by destruct (test_spec S database verbose w) as (_ & [? _] & _).
  - by destruct (build_spec S module_file verbose w) as (_ & [? _] & _).
Qed.


(** C10. A run of the build that returns ends by writing
    [warehouse/__about__.py] with the version [<series>.<counter + 1>.dev0]
    and the build tag [<development>], adding it and committing it, after
    the release file with version [<series>.<counter>] was written and
    both distributions were built and moved into [dist]. *)
Theorem development_about_committed (verbose : bool) (w : world X) :
  o_res (release_build S module_file verbose w) = Ok tt →
  ends_in_development (sys_utcnow S (w_ext w))
    (about_path module_file (w_cwd w)) verbose
    (o_trace (release_build S module_file verbose w)).
Proof.
  destruct (build_spec S module_file verbose w) as (_ & _ & _ & _ & _ & H).
  apply H.
Qed.

End Claims.

End Properties.

(** ** Runs on the scripted system *)

Module Runs.
Import Tasks PyFacts Rules Properties.


(** Building the wheel deletes it. *)
Definition wrecked_by_wheel : Sim.sim :=
  Sim.deleting "python setup.py bdist_wheel" "/repo" Sim.calm.

(** The documentation tests fail. *)
Definition docs_fail : Sim.sim := Sim.failing "tox -e docs" Sim.calm.

(** Eleven releases were tagged this month. *)
Definition eleven_tags : string :=
  Py.join Py.nl ["v13.9.0"; "v13.9.1"; "v13.9.2"; "v13.9.3"; "v13.9.4"; "v13.9.5";
                 "v13.9.6"; "v13.9.7"; "v13.9.8"; "v13.9.9"; "v13.9.10"]
  +:+ Py.nl.

Definition test_run (database : option string) (x : Sim.sim) : outcome Sim.sim unit :=
  release_test Sim.system database false (Sim.start x).

Definition build_run (x : Sim.sim) : outcome Sim.sim unit :=
  release_build Sim.system "tasks.py" false (Sim.start x).



(** The documentation tests fail: the task raises and only the cleanup
    follows. *)
Example failing_docs_abort :
  let o := test_run None docs_fail in
  ∃ pre,
    o_trace o = pre ++ [EvRun "tox -e docs" HideOut 1 "";
                        EvChdir "/repo" true; EvRmtree "/tmp/tmpq3x7/"]
    ∧ o_res o = Raise (Failure "tox -e docs" 1).
Proof.
  exists (take 7 (o_trace (test_run None docs_fail))).
  split; vm_compute; reflexivity.
Qed.

(** C4 as stated fails: the test task called with a database URL leaves
    [WAREHOUSE_DATABASE_URL] set. *)
Lemma test_sets_database_url :
  let w := Sim.start Sim.calm in
  let o := test_run (Some "postgresql://localhost/warehouse") Sim.calm in
  w_environ w !! "WAREHOUSE_DATABASE_URL" = None
  ∧ w_environ (o_world o) !! "WAREHOUSE_DATABASE_URL"
    = Some "postgresql://localhost/warehouse"
  ∧ w_environ (o_world o) ≠ w_environ w.
Proof.
  split; [done|]. split; [by vm_compute|].
  intros E. apply (f_equal (lookup "WAREHOUSE_DATABASE_URL")) in E.
  vm_compute in E. discriminate.
Qed.


(** C8: on the calm system both tasks end where they started. *)
Lemma cwd_restored_calm :
  w_cwd (o_world (test_run None Sim.calm)) = "/repo"
  ∧ w_cwd (o_world (build_run Sim.calm)) = "/repo".
Proof.
  destruct (cwd_restored Sim.system "tasks.py" None false (Sim.start Sim.calm))
    as [Ht Hb].
  split; [apply Ht|apply Hb]; by_evaluation.
Defined.

(** C8 as stated fails: when building the wheel deletes the starting
    directory, the build task ends in its temporary directory. *)
Lemma cwd_left_in_tmpdir :
  let o := build_run wrecked_by_wheel in
  w_cwd (o_world o) = "/tmp/tmpq3x7/"
  ∧ w_cwd (o_world o) ≠ w_cwd (Sim.start wrecked_by_wheel).
Proof. split; [by vm_compute|]. vm_compute. discriminate. Qed.


(** C10: on the calm system the build returns and ends with the
    development file of version [13.9.1.dev0]. *)
Lemma development_about_calm :
  ends_in_development {| year := 2013; month := 9 |}
    (about_path "tasks.py" "/repo") false (o_trace (build_run Sim.calm)).
Proof.
  apply (development_about_committed Sim.system "tasks.py" false
           (Sim.start Sim.calm)).
  vm_compute. reflexivity.
Defined.

(** C2 fails on the code: with the tags [v13.9.0] to [v13.9.10] the
    strings sort [v13.9.10] before [v13.9.2], the last one is [v13.9.9]
    and the new counter is 10, which [v13.9.10] already has; the build
    then asks git for the tag [v13.9.10] again. *)
Theorem counter_taken_after_eleven_releases :
  let x := {| Sim.s_now := Sim.s_now Sim.calm; Sim.s_tags := eleven_tags;
              Sim.s_rev := Sim.s_rev Sim.calm; Sim.s_envs := Sim.s_envs Sim.calm;
              Sim.s_failing := []; Sim.s_deletes := []; Sim.s_gone := [];
              Sim.s_dist := [] |} in
  Py.last_item (Py.sorted (Py.split_ws eleven_tags)) = Some "v13.9.9"
  ∧ next_version_num eleven_tags = Ok 10
  ∧ "v13.9.10" ∈ Py.split_ws eleven_tags
  ∧ (to_int <$> Py.last_item (Py.rsplit "." "v13.9.10")) = Some (Ok 10)
  ∧ EvRun "git tag -s -m 'Released version v13.9.10 (4f2a9c8)' v13.9.10"
      HideTrue 0 "" ∈ o_trace (build_run x).
Proof.
  repeat split; try (vm_compute; reflexivity); by_evaluation.
Qed.

End Runs.

(** ** More facts about the string operations *)

Module StringFacts.
Import Tasks PyFacts Rules.

(** *** The order of [sorted] *)

(** [a <= b] on Python strings: by code point, a proper prefix first. *)
Definition str_le (a b : string) : Prop := String.leb a b = true.

Lemma compare_le_trans (a b c : string) :
  (a ?= b)%string ≠ Gt → (b ?= c)%string ≠ Gt → (a ?= c)%string ≠ Gt.
Proof.
  revert b c. induction a as [|x a IH]; intros [|y b] [|z c]; simpl; try done.
  unfold Ascii.compare.
  destruct (N.compare_spec (N_of_ascii x) (N_of_ascii y)) as [E1|L1|L1];
    destruct (N.compare_spec (N_of_ascii y) (N_of_ascii z)) as [E2|L2|L2];
    try done;
    destruct (N.compare_spec (N_of_ascii x) (N_of_ascii z)) as [E3|L3|L3];
    try done; try lia.
  apply IH.
Qed.

Lemma str_le_trans a b c : str_le a b → str_le b c → str_le a c.
Proof.
  unfold str_le, String.leb. intros H1 H2.
  pose proof (compare_le_trans a b c) as H.
  destruct (a ?= b)%string, (b ?= c)%string, (a ?= c)%string; try done;
    by destruct H.
Qed.

Lemma str_le_total a b : str_le a b ∨ str_le b a.
Proof. apply String.leb_total. Qed.

Lemma str_le_refl a : str_le a a.
Proof. by destruct (str_le_total a a). Qed.

Lemma insert_sorted_perm x l : Py.insert_sorted x l ≡ₚ x :: l.
Proof.
  induction l as [|y l IH]; [done|]. simpl.
  destruct (String.leb x y); [done|]. rewrite IH. apply Permutation_swap.
Qed.

Lemma sorted_perm l : Py.sorted l ≡ₚ l.
Proof.
  induction l as [|x l IH]; [done|]. simpl.
  rewrite insert_sorted_perm. by rewrite IH.
Qed.

Lemma insert_sorted_ascending x l :
  StronglySorted str_le l → StronglySorted str_le (Py.insert_sorted x l).
Proof.
  induction 1 as [|y l Hl IH Hy]; simpl.
  - repeat constructor.
  - destruct (String.leb x y) eqn:E.
    + constructor; [by constructor|]. constructor; [done|].
      eapply Forall_impl; [exact Hy|]. intros z Hz. by eapply str_le_trans.
    + constructor; [done|]. rewrite insert_sorted_perm. constructor; [|done].
      destruct (str_le_total x y) as [H|H]; [|done].
      unfold str_le in H. congruence.
Qed.

Lemma sorted_ascending l : StronglySorted str_le (Py.sorted l).
Proof.
  induction l as [|x l IH]; simpl; [constructor|].
  by apply insert_sorted_ascending.
Qed.

Lemma ascending_last l m :
  StronglySorted str_le l → last l = Some m → Forall (λ x, str_le x m) l.
Proof.
  induction 1 as [|y l Hl IH Hy]; [done|]. intros E.
  destruct l as [|z l].
  - simplify_eq/=. repeat constructor. apply str_le_refl.
  - change (last (z :: l) = Some m) in E. specialize (IH E).
    constructor; [|done].
    apply Forall_cons in Hy as [Hz _]. apply Forall_cons in IH as [Hm _].
    by eapply str_le_trans.
Qed.


(** *** The last field of a split *)

Lemma fields_nonempty p s : Py.fields p s ≠ [].
Proof.
  destruct s as [|c s]; [done|]. simpl.
  destruct (p c); [done|]. by destruct (Py.fields p s).
Qed.

Lemma last_fields p s f :
  last (Py.fields p s) = Some f →
  free_of p f = true
  ∧ ((Py.fields p s = [f] ∧ s = f)
     ∨ (∃ g gs q c, Py.fields p s = g :: gs ∧ gs ≠ [] ∧ p c = true
                    ∧ s = q +:+ String c f)).
Proof.
  revert f. induction s as [|c s IH]; intros f.
  - simpl. intros [= <-]. split; [done|]. by left.
  - simpl. destruct (p c) eqn:Hc.
    + pose proof (fields_nonempty p s) as Hn.
      destruct (Py.fields p s) as [|g gs] eqn:E; [done|].
      intros Hl. change (last (g :: gs) = Some f) in Hl.
      destruct (IH f Hl) as [Hf H]. split; [done|]. right.
      exists "", (g :: gs).
      destruct H as [[_ ->]|(_ & _ & q & c' & _ & _ & Hc' & ->)].
      * by exists "", c.
      * exists (String c q), c'. by rewrite append_cons.
    + pose proof (fields_nonempty p s) as Hn.
      destruct (Py.fields p s) as [|g gs] eqn:E; [done|].
      destruct gs as [|g' gs].
      * intros [= <-]. destruct (IH g eq_refl) as [Hg H].
        destruct H as [[_ ->]|(? & ? & _ & _ & [= _ <-] & ? & _)]; [|done].
        split; [simpl; by rewrite Hc|]. by left.
      * intros Hl. change (last (g' :: gs) = Some f) in Hl.
        destruct (IH f Hl) as [Hf H]. split; [done|]. right.
        exists (String c g), (g' :: gs).
        destruct H as [[[=] _]|(_ & _ & q & c' & _ & _ & Hc' & ->)].
        exists (String c q), c'. by rewrite append_cons.
Qed.

(** *** [next_version_num] *)

Lemma sorted_last_max l m :
  last (Py.sorted l) = Some m → m ∈ l ∧ ∀ x, x ∈ l → str_le x m.
Proof.
  intros E. split.
  - rewrite <- (sorted_perm l). by apply last_Some_elem_of.
  - intros x Hx. rewrite <- (sorted_perm l) in Hx.
    pose proof (ascending_last _ _ (sorted_ascending l) E) as H.
    by apply (proj1 (Forall_forall _ _) H).
Qed.

Lemma sorted_nil l : Py.sorted l = [] → l = [].
Proof.
  intros E. apply Permutation_nil. by rewrite <- E, sorted_perm.
Qed.


(** *** [int_components] *)

Lemma map_int_str_Ok l l' :
  map_int_str l = Ok l' →
  ∃ zs, Forall2 (λ f z, Py.int f = Some z) l zs ∧ l' = Py.str <$> zs.
Proof.
  revert l'. induction l as [|x l IH]; intros l'; simpl.
  - intros [= <-]. exists []. by split; [constructor|].
  - unfold to_int. destruct (Py.int x) as [z|] eqn:Ex; [|done]. simpl.
    destruct (map_int_str l) as [r|] eqn:Er; [|done]. simpl.
    intros [= <-]. destruct (IH r eq_refl) as (zs & Hzs & ->).
    exists (z :: zs). by split; [constructor|].
Qed.

Lemma map_int_str_Raise l e :
  map_int_str l = Raise e → ∃ f, f ∈ l ∧ Py.int f = None ∧ e = ValueError f.
Proof.
  induction l as [|x l IH]; simpl; [done|].
  unfold to_int. destruct (Py.int x) as [z|] eqn:Ex; simpl.
  - destruct (map_int_str l) as [r|e'] eqn:Er; simpl; [done|].
    intros [= <-]. destruct (IH eq_refl) as (f & Hf & Hi & ->).
    exists f. split; [by right|done].
  - intros [= <-]. exists x. split; [by left|done].
Qed.

Lemma map_int_str_str zs : map_int_str (Py.str <$> zs) = Ok (Py.str <$> zs).
Proof.
  induction zs as [|z zs IH]; [done|].
  cbn [fmap list_fmap map_int_str]. rewrite to_int_str. simpl.
  change (list_fmap _ _ Py.str zs) with (Py.str <$> zs). by rewrite IH.
Qed.

Lemma split_join_str zs :
  zs ≠ [] → Py.split "." (Py.join "." (Py.str <$> zs)) = Py.str <$> zs.
Proof.
  induction zs as [|z zs IH]; [done|]. intros _.
  destruct zs as [|z' zs].
  - simpl. apply fields_free, str_dot_free.
  - change (Py.join "." (Py.str <$> z :: z' :: zs))
      with (Py.str z +:+ String "." (Py.join "." (Py.str <$> z' :: zs))).
    unfold Py.split in *. rewrite fields_app; [|apply str_dot_free|done].
    by rewrite IH.
Qed.

(** *** Tags whose counter is one digit *)

Lemma compare_append p a b : (p +:+ a ?= p +:+ b)%string = (a ?= b)%string.
Proof.
  induction p as [|c p IH]; [done|]. rewrite !append_cons. simpl.
  unfold Ascii.compare. by rewrite N.compare_refl.
Qed.

Lemma leb_append p a b : String.leb (p +:+ a) (p +:+ b) = String.leb a b.
Proof. unfold String.leb. by rewrite compare_append. Qed.

Lemma digit_leb k1 k2 :
  0 ≤ k1 ≤ 9 → 0 ≤ k2 ≤ 9 →
  String.leb (Py.str k1) (Py.str k2) = true → k1 ≤ k2.
Proof.
  intros H1 H2.
  assert (E1 : k1 = 0 ∨ k1 = 1 ∨ k1 = 2 ∨ k1 = 3 ∨ k1 = 4 ∨ k1 = 5 ∨ k1 = 6
               ∨ k1 = 7 ∨ k1 = 8 ∨ k1 = 9) by lia.
  assert (E2 : k2 = 0 ∨ k2 = 1 ∨ k2 = 2 ∨ k2 = 3 ∨ k2 = 4 ∨ k2 = 5 ∨ k2 = 6
               ∨ k2 = 7 ∨ k2 = 8 ∨ k2 = 9) by lia.
  destruct E1 as [->|[->|[->|[->|[->|[->|[->|[->|[->| ->]]]]]]]]];
    destruct E2 as [->|[->|[->|[->|[->|[->|[->|[->|[->| ->]]]]]]]]];
    vm_compute; congruence.
Qed.

Lemma last_fields_app sep q c f :
  sep c = true → free_of sep f = true →
  last (Py.fields sep (q +:+ String c f)) = Some f.
Proof.
  intros Hc Hf.
  assert (H : ∃ g gs, Py.fields sep (q +:+ String c f) = g :: gs
                      ∧ gs ≠ [] ∧ last gs = Some f).
  { induction q as [|x q IH].
    - exists "", [f]. change ("" +:+ String c f) with (String c f). simpl.
      rewrite Hc. by rewrite (fields_free _ _ Hf).
    - destruct IH as (g & gs & E & Hn & Hl). rewrite append_cons. simpl.
      rewrite E. destruct (sep x).
      + exists "", (g :: gs). split; [done|]. split; [done|].
        destruct gs; [done|]. exact Hl.
      + by exists (String x g), gs. }
  destruct H as (g & gs & -> & Hn & Hl). by destruct gs.
Qed.

End StringFacts.


(** ** Scripts: the commands and events of the tasks, in order *)

Module Scripts.
Import Tasks PyFacts Rules Properties StringFacts.

(** *** Commands and scripts *)

Definition command (e : event) : option string :=
  match e with
  | EvRun cmd _ _ _ => Some cmd
  | _ => None
  end.

(** The commands of a trace, in the order they were run. *)
Definition commands (t : list event) : list string := omap command t.

(** A step of a script: an event, or a command that succeeds with some
    output. *)
Inductive step :=
  | Exactly (e : event)
  | Runs (cmd : string) (h : hide).

Definition matches (s : step) (e : event) : Prop :=
  match s with
  | Exactly e' => e = e'
  | Runs cmd h => ∃ out, e = EvRun cmd h 0 out
  end.

Definition follows (script : list step) (t : list event) : Prop :=
  Forall2 matches script t.

Definition step_command (s : step) : option string :=
  match s with
  | Exactly e => command e
  | Runs cmd _ => Some cmd
  end.

Lemma commands_app t1 t2 : commands (t1 ++ t2) = commands t1 ++ commands t2.
Proof. apply omap_app. Qed.

Lemma commands_follows script t :
  follows script t → commands t = omap step_command script.
Proof.
  induction 1 as [|s e script t Hs _ IH]; [done|].
  assert (E : command e = step_command s).
  { destruct s as [e'|cmd h]; simpl in Hs; [by subst|by destruct Hs as [out ->]]. }
  change (commands (e :: t))
    with (match command e with Some c => c :: commands t | None => commands t end).
  change (omap step_command (s :: script))
    with (match step_command s with
          | Some c => c :: omap step_command script
          | None => omap step_command script
          end).
  by rewrite E, IH.
Qed.

Lemma follows_app s1 s2 t1 t2 :
  follows s1 t1 → follows s2 t2 → follows (s1 ++ s2) (t1 ++ t2).
Proof. apply Forall2_app. Qed.

(** *** The script of the test task *)

Definition tox_command (env : string) : string := "tox -e " +:+ env.

Definition env_steps (h : hide) (env : string) : list step :=
  [Exactly (EvPrint (banner "release.test" ("Running the " +:+ env +:+ " tests")));
   Runs (tox_command env) h].

Definition test_steps (c : string) (h : hide) (d listing : string) : list step :=
  [Exactly (EvPrint (banner "release.test"
              "Creating a temporary directory to export Warehouse to"));
   Exactly (EvMkdtemp (Some d));
   Runs ("git checkout-index -f -a --prefix=" +:+ with_slash d) h;
   Exactly (EvChdir (with_slash d) true);
   Exactly (EvRun "tox -l" h 0 listing);
   Exactly (EvPrint (banner "release.test"
              ("Running tests: " +:+ Py.join ", " (test_plan listing))))]
  ++ (test_plan listing ≫= env_steps h)
  ++ [Exactly (EvChdir c true); Exactly (EvRmtree (with_slash d))].

Definition test_script (d listing : string) : list string :=
  ("git checkout-index -f -a --prefix=" +:+ with_slash d)
  :: "tox -l" :: (tox_command <$> test_plan listing).

Lemma env_steps_commands h envs :
  omap step_command (envs ≫= env_steps h) = tox_command <$> envs.
Proof.
  induction envs as [|env envs IH]; [done|].
  change ((env :: envs) ≫= env_steps h)
    with (env_steps h env ++ (envs ≫= env_steps h)).
  rewrite omap_app, IH. reflexivity.
Qed.

Lemma env_steps_snoc h seen env t out :
  follows (seen ≫= env_steps h) t →
  follows ((seen ++ [env]) ≫= env_steps h)
    (t ++ [EvPrint (banner "release.test" ("Running the " +:+ env +:+ " tests"));
           EvRun ("tox -e " +:+ env) h 0 out]).
Proof.
  intros H. rewrite bind_app. apply follows_app; [done|].
  repeat constructor. by exists out.
Qed.

(** The events a directory [p] is the temporary directory of. *)
Definition own_tmpdir (t : list event) (p : string) : Prop :=
  ∃ d, EvMkdtemp (Some d) ∈ t ∧ p = with_slash d.

(** What the test task does to the file system, in a run of trace [t]
    started in [c]. *)
Definition test_footprint (c : string) (t : list event) (e : event) : Prop :=
  match e with
  | EvPrint _ | EvRun _ _ _ _ | EvMkdtemp _ => True
  | EvChdir p _ => p = c ∨ own_tmpdir t p
  | EvRmtree p => own_tmpdir t p
  | EvMakedirs _ _ | EvListdir _ _ | EvMove _ _ _ | EvWrite _ _ _ => False
  end.

(** A line printed or a command run. *)
Definition output_only (e : event) : Prop :=
  match e with
  | EvPrint _ | EvRun _ _ _ _ => True
  | _ => False
  end.

Lemma env_steps_output_only h envs t :
  follows (envs ≫= env_steps h) t → Forall output_only t.
Proof.
  revert t. induction envs as [|env envs IH]; intros t.
  - intros ->%Forall2_nil_inv_l. constructor.
  - change ((env :: envs) ≫= env_steps h)
      with (Exactly (EvPrint (banner "release.test" ("Running the " +:+ env +:+ " tests")))
            :: Runs (tox_command env) h :: (envs ≫= env_steps h)).
    intros (e1 & t1 & -> & (e2 & t2 & [out ->] & Ht & ->)%Forall2_cons_inv_l & ->)%Forall2_cons_inv_l.
    repeat constructor. by apply IH.
Qed.

(** What a run of the test task looks like: its commands, its footprint,
    and all its events when it returns. *)
Definition test_shape (c : string) (h : hide) (r : result unit)
    (t : list event) : Prop :=
  (∃ d listing,
     commands t `prefix_of` test_script d listing
     ∧ (r = Ok tt → commands t = test_script d listing))
  ∧ Forall (test_footprint c t) t
  ∧ (r = Ok tt → ∃ d listing, follows (test_steps c h d listing) t).

(** The events of the loop, after the environments [seen]. *)
Definition test_loop_follows {X} (h : hide) (seen : list string) (w : world X)
    (t : list event) : Prop :=
  follows (seen ≫= env_steps h) t.

Lemma commands_cons_run cmd h code out t :
  commands (EvRun cmd h code out :: t) = cmd :: commands t.
Proof. reflexivity. Qed.

Lemma commands_cons_skip e t : command e = None → commands (e :: t) = commands t.
Proof. unfold commands. simpl. by intros ->. Qed.

Lemma commands_loop {X} h seen (w : world X) t :
  test_loop_follows h seen w t → commands t = tox_command <$> seen.
Proof.
  intros H. rewrite (commands_follows _ _ H). apply env_steps_commands.
Qed.

Lemma footprint_loop {X} h seen (w : world X) c t0 t :
  test_loop_follows h seen w t → Forall (test_footprint c t0) t.
Proof.
  intros H. eapply Forall_impl; [by eapply env_steps_output_only|].
  by intros [].
Qed.

Ltac commands_simpl :=
  repeat first
    [ rewrite commands_app
    | rewrite commands_cons_run
    | rewrite commands_cons_skip by reflexivity
    | erewrite commands_loop by eassumption
    | progress change (commands []) with (@nil string) ].

Ltac prefix_tac :=
  repeat first
    [ apply prefix_nil
    | apply prefix_cons
    | reflexivity
    | apply prefix_app ].

Ltac test_script_leaf :=
  lazymatch goal with
  | |- context [EvRun "tox -l" _ 0 ?l] =>
      lazymatch goal with |- context [EvMkdtemp (Some ?d)] => exists d, l end
  | |- context [EvMkdtemp (Some ?d)] => exists d, ""
  | |- _ => exists "", ""
  end;
  commands_simpl; unfold test_script, test_plan;
  repeat match goal with H : elements _ = _ |- _ => rewrite H end;
  rewrite ?fmap_app, ?fmap_cons, ?app_nil_r;
  split; [solve [prefix_tac]|first [by intros [=] | reflexivity]].

Ltac footprint_item :=
  first
    [ exact I
    | left; reflexivity
    | right; eexists; split; [elem_of_trace|reflexivity]
    | eexists; split; [elem_of_trace|reflexivity] ].

Ltac test_footprint_leaf :=
  repeat first
    [ by apply Forall_nil
    | apply Forall_cons; split; [cbn [test_footprint]; footprint_item|]
    | apply Forall_app; split; [by eapply footprint_loop|] ].

Ltac follows_tac :=
  repeat first
    [ apply Forall2_nil_2
    | apply Forall2_cons_2; [first [reflexivity | eexists; reflexivity]|]
    | apply Forall2_app; [eassumption|] ].

Ltac test_steps_leaf :=
  first
    [ by intros [=]
    | intros _;
      lazymatch goal with
      | |- context [EvRun "tox -l" _ 0 ?l] =>
          lazymatch goal with |- context [EvMkdtemp (Some ?d)] => exists d, l end
      end;
      unfold follows, test_steps, test_plan; cbn [app]; solve [follows_tac] ].

Section TestShape.
Context {X : Type} (S : System X).

Lemma test_shape_spec database verbose w :
  wp (release_test S database verbose)
     (λ r _ t, test_shape (w_cwd w) (hide_of verbose) r t) w.
Proof.
  unfold release_test. repeat wp_step.
  all: try match goal with
       | |- wp (for_each _ _) _ _ =>
           apply wp_for_each with (I := test_loop_follows (hide_of verbose));
           [|intros ? ? ? ? ? ? ?; repeat wp_step
            |intros ? ? ?; repeat wp_step]
       end.
  all: trace_simpl.
  all: lazymatch goal with
       | |- test_loop_follows _ [] _ _ => by apply Forall2_nil
       | |- test_loop_follows _ _ _ _ => by apply env_steps_snoc
       | |- test_shape _ _ _ _ =>
           split; [test_script_leaf|split; [test_footprint_leaf|test_steps_leaf]]
       end.
Qed.

End TestShape.

(** *** The script of the build task *)

Lemma length_append_slash d :
  String.length (d +:+ "/") = Datatypes.S (String.length d).
Proof.
  induction d as [|c d IH]; [done|]. rewrite append_cons. simpl. by rewrite IH.
Qed.

Lemma substring_append_slash d :
  substring (String.length d) 1 (d +:+ "/") = "/".
Proof.
  induction d as [|c d IH]; [done|]. rewrite append_cons. simpl. exact IH.
Qed.

Lemma endswith_append_slash d : Py.endswith (d +:+ "/") "/" = true.
Proof.
  unfold Py.endswith. rewrite length_append_slash.
  change (String.length "/") with 1%nat.
  replace (Datatypes.S (String.length d) - 1)%nat with (String.length d) by lia.
  by rewrite substring_append_slash.
Qed.

Lemma with_slash_endswith d : Py.endswith (with_slash d) "/" = true.
Proof.
  unfold with_slash. destruct (Py.endswith d "/") eqn:E; [done|].
  apply endswith_append_slash.
Qed.

(** [os.path.join(tmpdir, name)] for a relative [name]. *)
Lemma join_with_slash d name :
  Path.isabs name = false → Path.join (with_slash d) [name] = with_slash d +:+ name.
Proof.
  intros Hn. unfold Path.join, Path.join2. simpl. rewrite Hn.
  rewrite with_slash_endswith. by rewrite orb_true_r.
Qed.

(** [hide=True if not verbose else None]. *)
Definition hide_all_of (verbose : bool) : hide :=
  if negb verbose then HideTrue else HideNone.

Definition build_script (now : datetime) (n : Z) (rev d branch : string)
    : list string :=
  let version := series now +:+ "." +:+ Py.str n in
  let build := Py.slice_to 7 rev in
  ["git tag -l 'v" +:+ series now +:+ ".*'";
   "git rev-parse HEAD";
   "git add warehouse/__about__.py";
   "git commit -m 'Generate the release __about__.py (version=" +:+ version
     +:+ " build=" +:+ build +:+ ")'";
   "git tag -s -m 'Released version v" +:+ version +:+ " (" +:+ build
     +:+ ")' v" +:+ version;
   "git rev-parse --abbrev-ref HEAD";
   "git checkout v" +:+ version;
   "git checkout-index -f -a --prefix=" +:+ with_slash d;
   "git checkout " +:+ Py.strip branch;
   "python setup.py sdist";
   "python setup.py bdist_wheel";
   "git add warehouse/__about__.py";
   "git commit -m 'Generate the development __about__.py'"].

(** One round of the loop over the distribution types. *)
Definition dist_steps (h : hide) (dist_type : string) (before after : list string)
    (filename : string) : list step :=
  [Exactly (EvListdir "dist" (Some before));
   Runs ("python setup.py " +:+ dist_type) h;
   Exactly (EvListdir "dist" (Some after));
   Exactly (EvPrint (banner "release.build"
              ("Generated " +:+ dist_type +:+ " (" +:+ filename +:+ ")")))].

(** What a round finds in [dist]. *)
Record dist_round := {
  r_before : list string;
  r_after : list string;
  r_file : string;
}.

Definition new_file (r : dist_round) : Prop :=
  r_file r ∈ r_after r ∧ r_file r ∉ r_before r.

Definition build_steps (now : datetime) (about c : string) (verbose : bool)
    (tags : string) (n : Z) (rev d branch : string) (sdist wheel : dist_round)
    : list step :=
  let h := hide_of verbose in
  let version := series now +:+ "." +:+ Py.str n in
  let build := Py.slice_to 7 rev in
  let next := (series now +:+ "." +:+ Py.str (n + 1)) +:+ ".dev0" in
  let out := λ message, Exactly (EvPrint (banner "release.build" message)) in
  [Exactly (EvRun ("git tag -l 'v" +:+ series now +:+ ".*'") h 0 tags);
   out ("New release will be version " +:+ version);
   Exactly (EvRun "git rev-parse HEAD" h 0 rev);
   out ("Using build tag: '" +:+ build +:+ "'");
   Exactly (EvWrite about (about_file version build) true);
   Runs "git add warehouse/__about__.py" h;
   Runs ("git commit -m 'Generate the release __about__.py (version=" +:+ version
         +:+ " build=" +:+ build +:+ ")'") h;
   out "warehouse/__about__.py generated with release values";
   Runs ("git tag -s -m 'Released version v" +:+ version +:+ " (" +:+ build
         +:+ ")' v" +:+ version) (hide_all_of verbose);
   out "Creating a temporary directory to export Warehouse to";
   Exactly (EvMkdtemp (Some d));
   Exactly (EvRun "git rev-parse --abbrev-ref HEAD" h 0 branch);
   Runs ("git checkout v" +:+ version) (hide_all_of verbose);
   Runs ("git checkout-index -f -a --prefix=" +:+ with_slash d) h;
   Runs ("git checkout " +:+ Py.strip branch) (hide_all_of verbose);
   Exactly (EvChdir (with_slash d) true);
   Exactly (EvMakedirs "dist" true)]
  ++ dist_steps h "sdist" (r_before sdist) (r_after sdist) (r_file sdist)
  ++ dist_steps h "bdist_wheel" (r_before wheel) (r_after wheel) (r_file wheel)
  ++ [Exactly (EvChdir c true);
      Exactly (EvRmtree (Path.abspath c "dist"));
      Exactly (EvMove (with_slash d +:+ "dist") (Path.abspath c "dist") true);
      Exactly (EvChdir c true);
      Exactly (EvRmtree (with_slash d));
      Exactly (EvWrite about (about_file next "<development>") true);
      Runs "git add warehouse/__about__.py" h;
      Runs "git commit -m 'Generate the development __about__.py'" h;
      out "warehouse/__about__.py generated with development values"].

(** What the build task does to the file system, in a run of trace [t]
    started in [c]. *)
Definition build_footprint (c about : string) (t : list event) (e : event)
    : Prop :=
  match e with
  | EvPrint _ | EvRun _ _ _ _ | EvMkdtemp _ => True
  | EvChdir p _ => p = c ∨ own_tmpdir t p
  | EvRmtree p => p = Path.abspath c "dist" ∨ own_tmpdir t p
  | EvMakedirs p _ | EvListdir p _ => p = "dist"
  | EvMove src dst _ =>
      (∃ d, EvMkdtemp (Some d) ∈ t ∧ src = with_slash d +:+ "dist")
      ∧ dst = Path.abspath c "dist"
  | EvWrite p _ _ => p = about
  end.

Lemma set_pop_new (before after : list string) (f : string) :
  head (elements (list_to_set after ∖ list_to_set before : gset string)) = Some f →
  new_file {| r_before := before; r_after := after; r_file := f |}.
Proof.
  intros H. apply head_Some_elem_of in H. apply elem_of_elements in H.
  unfold new_file. simpl. set_solver.
Qed.

(** What a run of the build task looks like. *)
Definition build_shape (now : datetime) (c about : string) (verbose : bool)
    (r : result unit) (t : list event) : Prop :=
  (∃ n rev d branch,
     commands t `prefix_of` build_script now n rev d branch
     ∧ (r = Ok tt → commands t = build_script now n rev d branch))
  ∧ Forall (build_footprint c about t) t
  ∧ (r = Ok tt →
     ∃ tags n rev d branch sdist wheel,
       next_version_num tags = Ok n
       ∧ new_file sdist ∧ new_file wheel
       ∧ follows (build_steps now about c verbose tags n rev d branch sdist wheel) t).

Ltac build_script_leaf :=
  eexists _, _, _, _; unfold build_script;
  cbv zeta; cbn [commands omap list_omap command];
  split; [solve [prefix_tac]|first [by intros [=] | intros _; reflexivity]].

Ltac build_footprint_item :=
  first
    [ exact I
    | reflexivity
    | left; reflexivity
    | right; eexists; split; [elem_of_trace|reflexivity]
    | split; [eexists; split; [elem_of_trace|reflexivity]|reflexivity] ].

Ltac build_footprint_leaf :=
  repeat first
    [ by apply Forall_nil
    | apply Forall_cons; split; [cbn [build_footprint]; build_footprint_item|] ].

Ltac build_steps_leaf :=
  first
    [ by intros [=]
    | intros _;
      eexists _, _, _, _, _, {| r_file := _ |}, {| r_file := _ |};
      refine (conj _ (conj _ (conj _ _))); cycle 3;
      [ unfold follows, build_steps, dist_steps; cbv zeta; cbn [app r_before r_after r_file];
        solve [follows_tac]
      | eassumption
      | by eapply set_pop_new
      | by eapply set_pop_new ] ].

Section BuildShape.
Context {X : Type} (S : System X) (module_file : string).

Lemma build_shape_spec verbose w :
  wp (release_build S module_file verbose)
     (λ r _ t, build_shape (sys_utcnow S (w_ext w)) (w_cwd w)
                 (about_path module_file (w_cwd w)) verbose r t) w.
Proof.
  unfold release_build. repeat wp_step.
  all: trace_simpl.
  all: rewrite ?join_with_slash by reflexivity.
  all: split; [build_script_leaf|split; [build_footprint_leaf|build_steps_leaf]].
  Unshelve. all: first [exact 0 | exact EmptyString].
Qed.

End BuildShape.

(** *** Commands across tasks *)

Lemma run_in_commands cmd h code out t :
  EvRun cmd h code out ∈ t → cmd ∈ commands t.
Proof.
  intros H. apply list_elem_of_omap. by exists (EvRun cmd h code out).
Qed.

Lemma elem_of_bind_trace {X A B} (m : M X A) (f : A → M X B) w e :
  e ∈ o_trace ((m ≫= f) w) →
  e ∈ o_trace (m w)
  ∨ ∃ a, o_res (m w) = Ok a ∧ e ∈ o_trace (f a (o_world (m w))).
Proof.
  unfold mbind, M_bind, bind. destruct (o_res (m w)) as [a|e']; simpl; [|auto].
  intros [H|H]%elem_of_app; [by left|]. right. by exists a.
Qed.

(** Whether a command is an upload. *)
Definition uploads (cmd : string) : bool := Py.startswith cmd "twine upload".

Lemma test_script_uploads d listing cmd :
  cmd ∈ test_script d listing → uploads cmd = false.
Proof.
  unfold test_script.
  intros [->|[->|(env & -> & _)%list_elem_of_fmap]%elem_of_cons]%elem_of_cons;
    reflexivity.
Qed.

Lemma build_script_uploads now n rev d branch cmd :
  cmd ∈ build_script now n rev d branch → uploads cmd = false.
Proof.
  unfold build_script. cbv zeta. intros H.
  repeat (apply elem_of_cons in H as [->|H]; [reflexivity|]).
  by apply elem_of_nil in H.
Qed.

End Scripts.

(** ** Further properties of the tasks *)

Module Further.
Import Tasks PyFacts Rules Properties StringFacts Scripts.

(** X1. The counter of the new version is 0 when [git tag -l] printed no
    tag. Otherwise one tag decides: a tag that no other exceeds in the order
    of the code points; the counter is one more than the integer written
    after its last dot (the whole tag when it holds no dot), and the only
    exception is the [ValueError] of that text. No [IndexError] is raised. *)
Theorem counter_from_greatest_tag (tags : string) :
  (Py.split_ws tags = [] ∧ next_version_num tags = Ok 0)
  ∨ ∃ latest prefix field,
      latest ∈ Py.split_ws tags
      ∧ (∀ tag, tag ∈ Py.split_ws tags → String.leb tag latest = true)
      ∧ (latest = field ∨ latest = prefix +:+ "." +:+ field)
      ∧ free_of (Ascii.eqb ".") field = true
      ∧ next_version_num tags
        = match Py.int field with
          | Some n => Ok (n + 1)
          | None => Raise (ValueError field)
          end.
Proof.
  unfold next_version_num, Py.last_item.
  destruct (last (Py.sorted (Py.split_ws tags))) as [latest|] eqn:E.
  - right. apply sorted_last_max in E as [Hin Hmax].
    pose proof (fields_nonempty (Ascii.eqb ".") latest) as Hn.
    unfold Py.rsplit, Py.split.
    destruct (last (Py.fields (Ascii.eqb ".") latest)) as [field|] eqn:El.
    + apply last_fields in El as [Hf H].
      assert (∃ prefix, latest = field ∨ latest = prefix +:+ "." +:+ field)
        as [prefix Hp].
      { destruct H as [[_ ->]|(_ & _ & q & c & _ & _ & Hc & ->)].
        - exists "". by left.
        - exists q. right. by apply Ascii.eqb_eq in Hc as <-. }
      exists latest, prefix, field. repeat split; try done.
      simpl. unfold to_int. by destruct (Py.int field).
    + apply last_None in El. done.
  - left. apply last_None, sorted_nil in E. by rewrite E.
Qed.

(** X2. What [".".join([str(int(x)) for x in s.split(".")])] returns is
    left as it is by the same expression: its components are integers in
    the form [str] prints them. *)
Theorem int_components_idempotent (s v : string) :
  int_components s = Ok v → int_components v = Ok v.
Proof.
  unfold int_components.
  destruct (map_int_str (Py.split "." s)) as [l|] eqn:E; [|done]. simpl.
  intros [= <-]. apply map_int_str_Ok in E as (zs & Hzs & ->).
  assert (Hn : zs ≠ []).
  { intros ->. apply Forall2_nil_inv_r in Hzs.
    by apply (fields_nonempty (Ascii.eqb ".") s). }
  rewrite (split_join_str zs Hn). by rewrite map_int_str_str.
Qed.

(** X3. The expression raises only for a component that [int] rejects, and
    what it raises is the [ValueError] of that component. *)
Theorem int_components_error (s : string) (e : exn) :
  int_components s = Raise e →
  ∃ f, f ∈ Py.split "." s ∧ Py.int f = None ∧ e = ValueError f.
Proof.
  unfold int_components.
  destruct (map_int_str (Py.split "." s)) as [l|e'] eqn:E; [done|]. simpl.
  intros [= <-]. by apply map_int_str_Raise.
Qed.

(** X4. [tmpdir if tmpdir.endswith("/") else tmpdir + "/"] ends in a slash,
    is [tmpdir] or [tmpdir] and a slash, and applied again changes
    nothing. *)
Theorem with_slash_ends_in_slash (d : string) :
  Py.endswith (with_slash d) "/" = true
  ∧ with_slash (with_slash d) = with_slash d
  ∧ (with_slash d = d ∨ with_slash d = d +:+ "/").
Proof.
  split; [apply with_slash_endswith|]. split.
  - unfold with_slash at 1. by rewrite with_slash_endswith.
  - unfold with_slash. destruct (Py.endswith d "/"); auto.
Qed.

(** The tag of the release [k] of a series, [prefix] being [v<series>]. *)
Definition tag_of (prefix : string) (k : Z) : string :=
  prefix +:+ "." +:+ Py.str k.

(** X15. When the tags listed are those of the releases of one series and
    every counter is a single digit, the new counter is one more than the
    greatest of them. *)
Theorem counter_after_single_digits (tags prefix : string) (ks : list Z) :
  Py.split_ws tags = tag_of prefix <$> ks →
  ks ≠ [] →
  Forall (λ k, 0 ≤ k ≤ 9) ks →
  ∃ k0, k0 ∈ ks ∧ (∀ k, k ∈ ks → k ≤ k0) ∧ next_version_num tags = Ok (k0 + 1).
Proof.
  intros Hs Hn Hd. unfold next_version_num, Py.last_item. rewrite Hs.
  destruct (last (Py.sorted (tag_of prefix <$> ks))) as [latest|] eqn:E.
  - apply sorted_last_max in E as [Hin Hmax].
    apply list_elem_of_fmap in Hin as (k0 & -> & Hk0).
    exists k0. split; [done|]. split.
    + intros k Hk.
      assert (Hle : str_le (tag_of prefix k) (tag_of prefix k0)).
      { apply Hmax. by apply list_elem_of_fmap_2. }
      unfold str_le, tag_of in Hle. rewrite !leb_append in Hle.
      rewrite Forall_forall in Hd. by apply digit_leb; auto.
    + unfold Py.rsplit, Py.split, tag_of.
      change ("." +:+ Py.str k0) with (String "." (Py.str k0)).
      rewrite last_fields_app; [|done|apply str_dot_free]. simpl.
      by rewrite to_int_str.
  - apply last_None, sorted_nil, fmap_nil_inv in E. done.
Qed.

Section TaskProperties.
Context {X : Type} (S : System X) (module_file : string).

(** X5. [_out] prints one line and does nothing else: the name in bold
    white between brackets, a space and the message, both as they are
    given, braces included. It does not raise. *)
Theorem out_prints_banner (name message : string) (w : world X) :
  _out name message w = Outcome (Ok tt) w [EvPrint (banner name message)].
Proof.
  unfold _out, mbind, M_bind, bind, format, expect.
  by rewrite format_banner.
Qed.

(** X6. Rendering [warehouse/__about__.py] is one write, whatever the
    version and the build tag are: formatting the template does not raise,
    the two values go into the file as they are, and the text starts with
    the licence header at the first column. The only exception is the one
    of the write. *)
Theorem render_about_writes (path version build : string) (w : world X) :
  let o := render_about S (Py.dedent about_source) path version build w in
  ∃ ok,
    o_trace o = [EvWrite path (about_file version build) ok]
    ∧ o_res o = (if ok then Ok tt else Raise (OSError "open" path))
    ∧ Py.startswith (about_file version build) "# Copyright 2013 Donald Stufft"
      = true.
Proof.
  cbv zeta.
  change (wp (render_about S (Py.dedent about_source) path version build)
            (λ r _ t,
               ∃ ok,
                 t = [EvWrite path (about_file version build) ok]
                 ∧ r = (if ok then Ok tt else Raise (OSError "open" path))
                 ∧ Py.startswith (about_file version build)
                     "# Copyright 2013 Donald Stufft" = true) w).
  apply wp_render_about; intros x; [exists true|exists false]; repeat split.
Qed.

(** The command of the upload task. *)
Definition twine_command (repository : option string) : string :=
  "twine upload --sign"
  +:+ match repository with Some r => " -r " +:+ r | None => "" end
  +:+ " dist/*".

(** X7. The upload task announces the repository ([PyPI] when none is
    given), runs [twine upload --sign dist/*], with [-r repository] when
    one is given, and prints [Uploaded.] when the command succeeded; when
    it failed the task raises its failure and prints nothing more. The
    working directory and the environment stay as they were. *)
Theorem upload_trace (repository : option string) (verbose : bool) (w : world X) :
  let o := release_upload S repository verbose w in
  let cmd := twine_command repository in
  ∃ code out,
    o_trace o
    = EvPrint (banner "release.upload"
                 ("Uploading to " +:+ default "PyPI" repository))
      :: EvRun cmd (if negb verbose then HideBoth else HideNone) code out
      :: (if decide (code = 0)
          then [EvPrint (banner "release.upload" "Uploaded.")] else [])
    ∧ o_res o = (if decide (code = 0) then Ok tt else Raise (Failure cmd code))
    ∧ w_cwd (o_world o) = w_cwd w
    ∧ w_environ (o_world o) = w_environ w.
Proof.
  cbv zeta.
  change (wp (release_upload S repository verbose)
            (λ r w' t,
               ∃ code out,
                 t = EvPrint (banner "release.upload"
                                ("Uploading to " +:+ default "PyPI" repository))
                     :: EvRun (twine_command repository)
                          (if negb verbose then HideBoth else HideNone) code out
                     :: (if decide (code = 0)
                         then [EvPrint (banner "release.upload" "Uploaded.")]
                         else [])
                 ∧ r = (if decide (code = 0) then Ok tt
                        else Raise (Failure (twine_command repository) code))
                 ∧ w_cwd w' = w_cwd w
                 ∧ w_environ w' = w_environ w) w).
  unfold release_upload. repeat wp_step.
  all: trace_simpl.
  all: try (exists 0, out; by rewrite decide_True).
  all: exists code, out; by rewrite !decide_False.
Qed.



(** X10. Whatever happens, the test task writes and moves no file, creates
    no directory other than its temporary one and lists none; it changes
    the working directory to the temporary directory or to the starting
    one only, and removes nothing but the temporary directory. *)
Theorem test_touches_its_tmpdir_only (database : option string) (verbose : bool)
    (w : world X) :
  let t := o_trace (release_test S database verbose w) in
  Forall (test_footprint (w_cwd w) t) t.
Proof. by destruct (test_shape_spec S database verbose w) as (_ & ? & _). Qed.

(** X11. The commands of a run of the build task are the first ones of a
    fixed list of thirteen, and all of them when the task returns: the tags
    of the series, the revision, add, commit and signed tag of the release,
    the current branch, the checkout of the tag, the export, the checkout of
    the branch, the two distributions, add and commit of the development
    file. One version and one build tag are used throughout. *)
Theorem build_commands (verbose : bool) (w : world X) :
  let o := release_build S module_file verbose w in
  ∃ n rev d branch,
    commands (o_trace o)
      `prefix_of` build_script (sys_utcnow S (w_ext w)) n rev d branch
    ∧ (o_res o = Ok tt →
       commands (o_trace o) = build_script (sys_utcnow S (w_ext w)) n rev d branch).
Proof. by destruct (build_shape_spec S module_file verbose w) as (? & _). Qed.

(** X12. A run of the build task that returns has exactly the events of
    [build_steps], where the counter is the one computed from the tags
    listed, the branch checked out again is the stripped output of
    [git rev-parse --abbrev-ref HEAD], each distribution reported is a file
    that is in [dist] after its command and was not before, and the old
    [dist] of the starting directory is removed before the new one is moved
    there from the temporary directory. *)
Theorem build_run_follows_script (verbose : bool) (w : world X) :
  o_res (release_build S module_file verbose w) = Ok tt →
  ∃ tags n rev d branch sdist wheel,
    next_version_num tags = Ok n
    ∧ new_file sdist ∧ new_file wheel
    ∧ follows (build_steps (sys_utcnow S (w_ext w))
                 (about_path module_file (w_cwd w)) (w_cwd w) verbose
                 tags n rev d branch sdist wheel)
        (o_trace (release_build S module_file verbose w)).
Proof. by destruct (build_shape_spec S module_file verbose w) as (_ & _ & ?). Qed.

(** X13. Whatever happens, the only file the build task writes is
    [warehouse/__about__.py] beside the module; the only directories it
    removes are [dist] of the starting directory and its temporary
    directory; the only move is of the temporary [dist] to [dist] of the
    starting directory; it creates and lists [dist] only, and changes to the
    temporary directory or to the starting one only. *)
Theorem build_touches_about_and_dist_only (verbose : bool) (w : world X) :
  let t := o_trace (release_build S module_file verbose w) in
  Forall (build_footprint (w_cwd w) (about_path module_file (w_cwd w)) t) t.
Proof. by destruct (build_shape_spec S module_file verbose w) as (_ & ? & _). Qed.

(** X14. In a run of [all], an upload command is run only after the test
    task and the build task returned: neither of them runs one, and a task
    that raises ends the run. *)
Theorem upload_only_after_test_and_build (forward : bool) (kw : kwargs)
    (w : world X) (cmd : string) (h : hide) (code : Z) (out : string) :
  let kw' := pre_kwargs forward kw in
  let test := release_test S (kw_database kw') (kw_verbose kw') w in
  let build := release_build S module_file (kw_verbose kw') (o_world test) in
  EvRun cmd h code out
    ∈ o_trace (execute forward (ns S module_file) "release.all" kw w) →
  uploads cmd = true →
  o_res test = Ok tt ∧ o_res build = Ok tt.
Proof.
  cbv zeta. rewrite execute_all. set (kw' := pre_kwargs forward kw).
  intros Hin Hup.
  apply elem_of_bind_trace in Hin as [Hin|([] & Ht & Hin)].
  { destruct (test_shape_spec S (kw_database kw') (kw_verbose kw') w)
      as ((d & listing & Hp & _) & _).
    apply run_in_commands in Hin. eapply elem_of_prefix in Hin; [|exact Hp].
    apply test_script_uploads in Hin. congruence. }
  split; [done|].
  apply elem_of_bind_trace in Hin as [Hin|([] & Hb & _)]; [|done].
  destruct (build_shape_spec S module_file (kw_verbose kw')
              (o_world (release_test S (kw_database kw') (kw_verbose kw') w)))
    as ((n & rev & d & branch & Hp & _) & _).
  apply run_in_commands in Hin. eapply elem_of_prefix in Hin; [|exact Hp].
  apply build_script_uploads in Hin. congruence.
Qed.

End TaskProperties.

(** *** Runs on the scripted system *)

(** The scripted system with a [mkdtemp] that returns a new name each
    time. *)
Definition fresh_names : System Sim.sim := {|
  sys_utcnow := sys_utcnow Sim.system;
  sys_exec := sys_exec Sim.system;
  sys_mkdtemp := λ x,
    (Some ("/tmp/tmp" +:+ Py.str (Z.of_nat (length (Sim.s_gone x)))), x);
  sys_chdir := sys_chdir Sim.system;
  sys_rmtree := sys_rmtree Sim.system;
  sys_makedirs := sys_makedirs Sim.system;
  sys_listdir := sys_listdir Sim.system;
  sys_move := sys_move Sim.system;
  sys_write := sys_write Sim.system;
|}.

(** X2: [13.09] gives [13.9], which stays. *)
Lemma int_components_of_13_9 : int_components "13.9" = Ok "13.9".
Proof. apply (int_components_idempotent "13.09"). vm_compute. reflexivity. Defined.

(** X3: [13.x] raises the [ValueError] of [x]. *)
Lemma int_components_of_13_x :
  ∃ f, f ∈ Py.split "." "13.x" ∧ Py.int f = None ∧ ValueError "x" = ValueError f.
Proof. apply (int_components_error "13.x" (ValueError "x")). vm_compute. reflexivity. Defined.

(** X15: after [v13.9.0] and [v13.9.1]. *)
Lemma counter_after_two_releases :
  ∃ k0, k0 ∈ [0; 1] ∧ (∀ k, k ∈ [0; 1] → k ≤ k0)
        ∧ next_version_num ("v13.9.0" +:+ Py.nl +:+ "v13.9.1" +:+ Py.nl) = Ok (k0 + 1).
Proof.
  apply (counter_after_single_digits _ "v13.9" [0; 1]).
  - vm_compute. reflexivity.
  - discriminate.
  - repeat constructor; lia.
Defined.


(** X12: the build task on the calm system. *)
Lemma build_run_calm :
  ∃ tags n rev d branch sdist wheel,
    next_version_num tags = Ok n
    ∧ new_file sdist ∧ new_file wheel
    ∧ follows (build_steps {| year := 2013; month := 9 |}
                 (about_path "tasks.py" "/repo") "/repo" false
                 tags n rev d branch sdist wheel)
        (o_trace (Runs.build_run Sim.calm)).
Proof.
  apply (build_run_follows_script Sim.system "tasks.py" false (Sim.start Sim.calm)).
  vm_compute. reflexivity.
Defined.

(** X14: a whole release on the calm system uploads, after tests and build
    that returned. *)
Lemma upload_after_calm_release :
  o_res (release_test fresh_names None false (Sim.start Sim.calm)) = Ok tt
  ∧ o_res (release_build fresh_names "tasks.py" false
             (o_world (release_test fresh_names None false (Sim.start Sim.calm))))
    = Ok tt.
Proof.
  apply (upload_only_after_test_and_build fresh_names "tasks.py" true no_kwargs
           (Sim.start Sim.calm) "twine upload --sign dist/*" HideBoth 0 "").
  - by_evaluation.
  - reflexivity.
Defined.

End Further.
